(** * IMP temperature tool: a shallow embedding of [main.c]

    The firmware samples an ADC, converts the sample to degrees Celsius,
    drives an LED through a hysteresis threshold, appends a time-stamped
    record to non-volatile storage (NVS) and serves the state over HTTP.

    Conventions of the embedding:
    - C [double] is IEEE binary64, modelled by Rocq's primitive [float];
      [int], [uint16_t], [size_t] (32 bits on the ESP32) and [time_t] are [Z]
      with the wrap-around written out;
    - the global variables of [main.c], the LED level and the NVS partition
      form one record [device]; every C function is a computation in the
      state monad [M] over it;
    - ESP-IDF calls that may be refused take their outcome from a fault
      script carried by the device ([faults]): an empty script means that
      every call behaves normally;
    - a key or a record that is written past the end of its array is
      taken to be read back as written, and the device records the
      overrun ([overrun]);
    - libc ([localtime], [mktime], [printf] of a double, [strtod]) is not
      part of the repository and is a parameter ([Libc]). *)

From Stdlib Require Import ZArith List Floats Uint63 Lia Bool Ascii String.
From stdpp Require Import base gmap strings pretty list.
Import ListNotations.

Set Warnings "-inexact-float".
Local Open Scope Z_scope.

(** ** Machine integers *)

Definition wrap16 (z : Z) : Z := z mod 65536.
Definition wrap32 (z : Z) : Z := z mod 4294967296.
Definition wrap64 (z : Z) : Z := z mod 18446744073709551616.

(** Reading an unsigned 32-bit pattern as an [int] (the [%d] conversion). *)
Definition to_int32 (z : Z) : Z :=
  let u := wrap32 z in if u <? 2147483648 then u else u - 4294967296.

(** Reading a 64-bit pattern as a signed [time_t]. *)
Definition to_int64 (z : Z) : Z :=
  let u := wrap64 z in
  if u <? 9223372036854775808 then u else u - 18446744073709551616.

(** Conversion [int -> double]; exact for the magnitudes that occur. *)
Definition float_of_int (z : Z) : float :=
  if z <? 0 then PrimFloat.opp (PrimFloat.of_uint63 (Uint63.of_Z (- z)))
  else PrimFloat.of_uint63 (Uint63.of_Z z).

(** ** The C library, as a parameter *)

Record tm := Tm {
  tm_sec : Z; tm_min : Z; tm_hour : Z; tm_mday : Z; tm_mon : Z;
  tm_year : Z; tm_wday : Z; tm_yday : Z; tm_isdst : Z }.

Definition tm_zero : tm := Tm 0 0 0 0 0 0 0 0 0.

Definition add_hour (ti : tm) (h : Z) : tm :=
  Tm (tm_sec ti) (tm_min ti) (tm_hour ti + h) (tm_mday ti) (tm_mon ti)
     (tm_year ti) (tm_wday ti) (tm_yday ti) (tm_isdst ti).

Class Libc := {
  localtime : Z -> tm;            (* localtime, localtime_r *)
  mktime : tm -> Z;
  printf_2f : float -> string;    (* the characters "%.2f" produces *)
  strtod_value : string -> float  (* strtod, where a number is recognised *)
}.

(** ** Device state *)

Inductive esp_err_t :=
| ESP_OK
| ESP_FAIL
| ESP_ERR_NVS_NOT_FOUND
| ESP_ERR_NVS_NOT_ENOUGH_SPACE
| ESP_ERR_NVS_INVALID_LENGTH.

Definition is_ok (e : esp_err_t) : bool :=
  match e with ESP_OK => true | _ => false end.

Inductive nvs_value :=
| NvsU16 (v : Z)
| NvsStr (s : string).

Record device := Device {
  temperature : float;               (* double temperature *)
  temperature_arr : list string;     (* char temperature_arr[10][48] *)
  threshold : float;                 (* double threshold *)
  threshold_overcome : bool;
  t : Z;                             (* time_t t *)
  time_as_string : string;           (* char time_as_string[64] *)
  err : esp_err_t;
  gpio_led : bool;                   (* level of GPIO 4 *)
  nvs : gmap string nvs_value;       (* namespace "temp_mem" *)
  faults : list esp_err_t;           (* outcomes of the next fallible calls *)
  overrun : bool                     (* a write went past the end of
                                        temperature_key[] or of a row of
                                        temperature_arr *)
}.

Definition THRESHOLD_DEFAULT_VALUE : float := (-50)%float.
Definition memory_temperature : string := "t".
Definition memory_count : string := "count".

(** The globals as initialised at load time, before [app_main]; the
    partition is empty and no call is refused. *)
Definition boot : device :=
  Device 0%float (replicate 10 EmptyString) THRESHOLD_DEFAULT_VALUE false 0
         EmptyString ESP_OK false ∅ [] false.

Definition set_temperature (x : float) (d : device) : device :=
  Device x (temperature_arr d) (threshold d) (threshold_overcome d) (t d)
         (time_as_string d) (err d) (gpio_led d) (nvs d) (faults d)
         (overrun d).
Definition set_temperature_arr (a : list string) (d : device) : device :=
  Device (temperature d) a (threshold d) (threshold_overcome d) (t d)
         (time_as_string d) (err d) (gpio_led d) (nvs d) (faults d)
         (overrun d).
Definition set_threshold (x : float) (d : device) : device :=
  Device (temperature d) (temperature_arr d) x (threshold_overcome d) (t d)
         (time_as_string d) (err d) (gpio_led d) (nvs d) (faults d)
         (overrun d).
Definition set_threshold_overcome (b : bool) (d : device) : device :=
  Device (temperature d) (temperature_arr d) (threshold d) b (t d)
         (time_as_string d) (err d) (gpio_led d) (nvs d) (faults d)
         (overrun d).
Definition set_t (z : Z) (d : device) : device :=
  Device (temperature d) (temperature_arr d) (threshold d)
         (threshold_overcome d) z (time_as_string d) (err d) (gpio_led d)
         (nvs d) (faults d) (overrun d).
Definition set_time_as_string (s : string) (d : device) : device :=
  Device (temperature d) (temperature_arr d) (threshold d)
         (threshold_overcome d) (t d) s (err d) (gpio_led d) (nvs d)
         (faults d) (overrun d).
Definition set_err (e : esp_err_t) (d : device) : device :=
  Device (temperature d) (temperature_arr d) (threshold d)
         (threshold_overcome d) (t d) (time_as_string d) e (gpio_led d)
         (nvs d) (faults d) (overrun d).
Definition set_gpio_led (b : bool) (d : device) : device :=
  Device (temperature d) (temperature_arr d) (threshold d)
         (threshold_overcome d) (t d) (time_as_string d) (err d) b (nvs d)
         (faults d) (overrun d).
Definition set_nvs (m : gmap string nvs_value) (d : device) : device :=
  Device (temperature d) (temperature_arr d) (threshold d)
         (threshold_overcome d) (t d) (time_as_string d) (err d)
         (gpio_led d) m (faults d) (overrun d).
Definition set_faults (f : list esp_err_t) (d : device) : device :=
  Device (temperature d) (temperature_arr d) (threshold d)
         (threshold_overcome d) (t d) (time_as_string d) (err d)
         (gpio_led d) (nvs d) f (overrun d).
Definition set_overrun (b : bool) (d : device) : device :=
  Device (temperature d) (temperature_arr d) (threshold d)
         (threshold_overcome d) (t d) (time_as_string d) (err d)
         (gpio_led d) (nvs d) (faults d) b.

(** ** The state monad of the firmware *)

Definition M (A : Type) : Type := device -> A * device.

Definition ret {A} (a : A) : M A := fun d => (a, d).
Definition bind {A B} (m : M A) (k : A -> M B) : M B :=
  fun d => let (a, d') := m d in k a d'.
Definition get : M device := fun d => (d, d).
Definition modify (f : device -> device) : M unit := fun d => (tt, f d).
Definition exec {A} (m : M A) (d : device) : device := snd (m d).
Definition eval {A} (m : M A) (d : device) : A := fst (m d).

Notation "'let*' x ':=' m 'in' k" := (bind m (fun x => k))
  (at level 10, x pattern, m at level 100, k at level 200).

(** ** Converter ([get_temperature], lines 91-97) *)

(** The curve applied to one raw sample.  [pow(-8.194, 2)] is the rounded
    square of the constant. *)
Definition temperature_of (mV : Z) : float :=
  ((8.194
    - PrimFloat.sqrt ((-8.194) * (-8.194)
                      + 4 * 0.00262 * float_of_int (1324 - mV)))
   / (2 * -0.00262) + 40)%float.

(** [mV] is what [adc1_get_raw] returned. *)
Definition get_temperature (mV : Z) : M unit :=
  modify (set_temperature (temperature_of mV)).

(** ** Threshold controller ([handle_threshold], lines 102-114) *)

Definition gpio_set_level (level : bool) : M unit :=
  modify (set_gpio_led level).

Definition handle_threshold : M unit :=
  let* d := get in
  if negb (threshold d =? THRESHOLD_DEFAULT_VALUE)%float then
    if (threshold d <=? temperature d)%float
       || (threshold_overcome d
           && (threshold d - 1 <=? temperature d)%float)
    then let* _ := modify (set_threshold_overcome true) in
         gpio_set_level true
    else let* _ := modify (set_threshold_overcome false) in
         gpio_set_level false
  else ret tt.

(** Feeding a sequence of temperatures to the controller, one sampling
    cycle each, and recording [threshold_overcome] after every cycle. *)
Fixpoint alarm_trace (temps : list float) (d : device) : list bool :=
  match temps with
  | [] => []
  | x :: rest =>
      let d' := exec handle_threshold (set_temperature x d) in
      threshold_overcome d' :: alarm_trace rest d'
  end.

(** ** Character-level helpers of the C library calls that are fixed by
    the C standard (no locale, no rounding involved) *)

Definition NUL : ascii := Ascii.zero.

Definition is_digit (c : ascii) : bool :=
  ((48 <=? nat_of_ascii c) && (nat_of_ascii c <=? 57))%nat.

(** [isspace] in the "C" locale: space, \t, \n, \v, \f, \r. *)
Definition is_space (c : ascii) : bool :=
  (nat_of_ascii c =? 32)%nat
  || ((9 <=? nat_of_ascii c) && (nat_of_ascii c <=? 13))%nat.

Definition to_lower (c : ascii) : ascii :=
  if ((65 <=? nat_of_ascii c) && (nat_of_ascii c <=? 90))%nat
  then ascii_of_nat (nat_of_ascii c + 32) else c.

Fixpoint skip_spaces (s : string) : string :=
  match s with
  | String c r => if is_space c then skip_spaces r else s
  | EmptyString => s
  end.

Definition skip_sign (s : string) : string :=
  match s with
  | String c r =>
      if Ascii.eqb c "+" || Ascii.eqb c "-" then r else s
  | EmptyString => s
  end.

(** Case-insensitive prefix test. *)
Fixpoint has_prefix_ci (p s : string) : bool :=
  match p, s with
  | EmptyString, _ => true
  | String a p', String b s' =>
      Ascii.eqb a (to_lower b) && has_prefix_ci p' s'
  | String _ _, EmptyString => false
  end.

(** Whether [strtod] finds a subject sequence at the start of [s]: after
    white space and an optional sign, a digit, a point followed by a
    digit, "inf" or "nan" (C99 7.20.1.3; hexadecimal numbers start with
    the digit 0). *)
Definition strtod_has_number (s : string) : bool :=
  let s' := skip_sign (skip_spaces s) in
  match s' with
  | String c r =>
      is_digit c
      || (Ascii.eqb c "." && match r with
                             | String c' _ => is_digit c'
                             | EmptyString => false
                             end)
      || has_prefix_ci "inf" s'
      || has_prefix_ci "nan" s'
  | EmptyString => false
  end.

(** The C string held by a [char] array: the characters before the first
    NUL; [None] when the array holds no NUL (the read leaves the array). *)
Fixpoint c_string (a : list ascii) : option string :=
  match a with
  | [] => None
  | c :: r =>
      if Ascii.eqb c NUL then Some EmptyString
      else match c_string r with
           | Some s => Some (String c s)
           | None => None
           end
  end.

(** [printf("%0<width>d", z)]: the sign, then zeros up to the width. *)
Definition pad0 (width : nat) (z : Z) : string :=
  let digits := pretty (Z.abs z) in
  if z <? 0 then
    "-" +:+ string_of_list_ascii
              (replicate (width - 1 - String.length digits)%nat "0"%char)
        +:+ digits
  else
    string_of_list_ascii
      (replicate (width - String.length digits)%nat "0"%char)
    +:+ digits.

(** What [snprintf(buf, size, ...)] leaves in [buf]: at most [size - 1]
    characters of the formatted text. *)
Definition snprintf (size : nat) (text : string) : string :=
  String.substring 0 (size - 1) text.

Section Firmware.
Context {libc : Libc}.

(** ** Clock ([init_time], lines 176-197; [get_time], lines 202-212) *)

(** The polling loop of [init_time].  [time_at k] is the value the [k]-th
    call of [time] stores in [now]; the result is the last [timeinfo] and
    the number of polls made. *)
Fixpoint init_time_loop (fuel : nat) (time_at : Z -> Z)
    (timeinfo : tm) (retry : Z) : tm * Z :=
  match fuel with
  | O => (timeinfo, retry)
  | S fuel' =>
      if (tm_year timeinfo <? 2016 - 1900) && (retry + 1 <? 10)
      then init_time_loop fuel' time_at (localtime (time_at (retry + 1)))
                          (retry + 1)
      else (timeinfo, retry)
  end.

Definition init_time (time_at : Z -> Z) : M unit :=
  let timeinfo := fst (init_time_loop 10 time_at tm_zero 0) in
  modify (set_t (mktime (add_hour timeinfo 1))).

(** [esp_rtc_get_time_us() / 1000000] on the [uint64_t] counter. *)
Definition rtc_sec (rtc_us : Z) : Z := wrap64 rtc_us / 1000000.

(** The instant [get_time] formats: [t + rtc_sec]. *)
Definition actual_time (d : device) (rtc_us : Z) : Z :=
  to_int64 (t d + rtc_sec rtc_us).

Definition format_time (time : tm) : string :=
  snprintf 64
    (pad0 4 (to_int32 (tm_year time + 1900)) +:+ "-"
     +:+ pad0 2 (to_int32 (tm_mon time + 1)) +:+ "-"
     +:+ pad0 2 (tm_mday time) +:+ " "
     +:+ pad0 2 (tm_hour time) +:+ ":"
     +:+ pad0 2 (tm_min time) +:+ ":"
     +:+ pad0 2 (tm_sec time) +:+ " ").

(** [rtc_us] is what [esp_rtc_get_time_us] returned. *)
Definition get_time (rtc_us : Z) : M unit :=
  let* d := get in
  modify (set_time_as_string (format_time (localtime (actual_time d rtc_us)))).

(** ** The NVS calls

    Contract of the key-value store: a read returns the stored value or
    misses; a write or an erase either takes effect or is refused.  A
    call is refused when the fault script says so.  The namespace is
    taken to open ([nvs_open] returns [ESP_OK]). *)

(** The bytes a string takes in a buffer or in the partition: its
    characters and the terminator. *)
Definition data_size (v : string) : Z := Z.of_nat (String.length v) + 1.

Definition next_fault : M esp_err_t :=
  fun d => match faults d with
           | [] => (ESP_OK, d)
           | e :: rest => (e, set_faults rest d)
           end.

Definition nvs_open : M esp_err_t := ret ESP_OK.

(** [out] is the value of the output variable before the call; it is
    left as it was when the call fails. *)
Definition nvs_get_u16 (key : string) (out : Z) : M (esp_err_t * Z) :=
  let* e := next_fault in
  if is_ok e then
    let* d := get in
    match nvs d !! key with
    | Some (NvsU16 v) => ret (ESP_OK, v)
    | _ => ret (ESP_ERR_NVS_NOT_FOUND, out)
    end
  else ret (e, out).

(** [out] is the content of the buffer and [length] the value of the
    in/out capacity before the call.  A stored string that needs more
    than [length] bytes is refused; the capacity is set to the size of
    the stored string whenever the key is found. *)
Definition nvs_get_str (key : string) (out : string) (length : Z)
    : M (esp_err_t * string * Z) :=
  let* e := next_fault in
  if is_ok e then
    let* d := get in
    match nvs d !! key with
    | Some (NvsStr v) =>
        if length <? data_size v
        then ret (ESP_ERR_NVS_INVALID_LENGTH, out, data_size v)
        else ret (ESP_OK, v, data_size v)
    | _ => ret (ESP_ERR_NVS_NOT_FOUND, out, length)
    end
  else ret (e, out, length).

Definition nvs_set_str (key value : string) : M esp_err_t :=
  let* e := next_fault in
  if is_ok e then
    let* d := get in
    let* _ := modify (set_nvs (<[key := NvsStr value]> (nvs d))) in
    ret ESP_OK
  else ret e.

Definition nvs_set_u16 (key : string) (value : Z) : M esp_err_t :=
  let* e := next_fault in
  if is_ok e then
    let* d := get in
    let* _ := modify (set_nvs (<[key := NvsU16 value]> (nvs d))) in
    ret ESP_OK
  else ret e.

Definition nvs_erase_all : M esp_err_t :=
  let* e := next_fault in
  if is_ok e then
    let* _ := modify (set_nvs ∅) in ret ESP_OK
  else ret e.

Definition nvs_commit : M esp_err_t := next_fault.

(** [err = call;] *)
Definition assign_err (call : M esp_err_t) : M esp_err_t :=
  let* e := call in
  let* _ := modify (set_err e) in
  ret e.

(** ** History store *)

(** [clear_memory], lines 219-232. *)
Definition clear_memory : M unit :=
  let* _ := assign_err nvs_open in
  let* _ := assign_err nvs_erase_all in
  ret tt.

(** [char temperature_key[strlen(memory_temperature) + 2]], lines 267
    and 302: room for "t", one digit and the terminator. *)
Definition temperature_key_size : nat := String.length memory_temperature + 2.

(** A row of [char temperature_arr[10][48]]. *)
Definition row_size : Z := 48.

(** The text [strcpy] and [snprintf(.., 8, "%d", n)] write from
    [temperature_key[0]] on. *)
Definition temperature_key (n : Z) : string :=
  memory_temperature +:+ snprintf 8 (pretty n).

(** Whether that text and its terminator go past the end of the array. *)
Definition key_overrun (n : Z) : bool :=
  (temperature_key_size <? String.length (temperature_key n) + 1)%nat.

(** Building the key of index [n].  The bytes that do not fit the array
    are written behind it; the NVS call that follows reads the key back
    through the same pointer, so it sees the text as written. *)
Definition build_key (n : Z) : M string :=
  let* _ := modify (fun d => set_overrun (overrun d || key_overrun n) d) in
  ret (temperature_key n).

(** The record built at lines 256-264 from the globals. *)
Definition record_of (d : device) : string :=
  time_as_string d +:+ snprintf 8 (printf_2f (temperature d)).

(** [store_temperature], lines 238-292. *)
Definition store_temperature (rtc_us : Z) : M unit :=
  let* _ := assign_err nvs_open in
  let* (e, count) := nvs_get_u16 memory_count 0 in
  let* _ := modify (set_err e) in
  let* count :=
    (if is_ok e then ret (wrap16 (count + 1))
     else let* _ := clear_memory in ret 0) in
  let* _ := get_time rtc_us in
  let* d := get in
  let record := record_of d in
  let* key := build_key count in
  let* e := assign_err (nvs_set_str key record) in
  let* count :=
    (if is_ok e then ret count
     else let* _ := clear_memory in ret 0) in
  let* e := assign_err (nvs_set_u16 memory_count count) in
  let* count :=
    (if is_ok e then ret count
     else let* _ := clear_memory in ret 0) in
  let* _ := assign_err nvs_commit in
  ret tt.

(** The loop of [get_last_10_temperatures_from_nvm], lines 316-326.  [i]
    is the [size_t] loop variable, [bound] the right-hand side of the
    comparison converted to [size_t], [s] the variable whose address is
    passed to [nvs_get_str] as capacity: what one lookup leaves in it is
    the capacity of the next.  A string of more than [row_size] bytes
    that is copied goes past the end of its row. *)
Fixpoint last_10_loop (fuel : nat) (count bound i index s : Z) : M unit :=
  match fuel with
  | O => ret tt
  | S fuel' =>
      if bound <? i then
        let* key := build_key (to_int32 (count - index)) in
        let row := Z.to_nat (wrap32 (count - i)) in
        let* d := get in
        let old := nth row (temperature_arr d) EmptyString in
        let* (e, value, s') := nvs_get_str key old s in
        let* _ := modify (set_err e) in
        let* _ := modify (fun d =>
                    set_overrun (overrun d || (is_ok e && (row_size <? s')))
                                d) in
        let* _ := modify (fun d =>
                    set_temperature_arr (<[row := value]> (temperature_arr d))
                                        d) in
        last_10_loop fuel' count bound (wrap32 (i - 1)) (index + 1) s'
      else ret tt
  end.

(** [get_last_10_temperatures_from_nvm], lines 298-329.  [s] is the
    value the uninitialised [size_t s] of line 301 happens to hold.  The
    loop variable strictly decreases from [count] towards a bound that
    is not negative, so [count] iterations are enough fuel. *)
Definition get_last_10_temperatures_from_nvm (s : Z) : M unit :=
  let* _ := assign_err nvs_open in
  let* (e, count) := nvs_get_u16 memory_count 0 in
  let* _ := modify (set_err e) in
  let bound := wrap32 (if 0 <=? count - 10 then count - 10 else -1) in
  last_10_loop (Z.to_nat count) count bound count 0 s.

(** ** HTTP handlers *)

(** [get_temperature_handler], lines 362-371: the body sent. *)
Definition get_temperature_handler : M string :=
  let* d := get in
  ret (snprintf 16 (printf_2f (temperature d))).

(** [get_last_10_temperatures_from_nvm_handler], lines 379-405: the
    strings of the JSON array "temperature". *)
Definition get_last_10_temperatures_from_nvm_handler (s : Z)
    : M (list string) :=
  let* _ := get_last_10_temperatures_from_nvm s in
  let* d := get in
  ret (map (fun i => nth i (temperature_arr d) EmptyString) (seq 0 10)).

(** The scan of the request body, lines 422-429.  [None]: a write
    outside [thresh[10]]. *)
Fixpoint scan_body (buffer : list ascii) (count : Z) (thresh : list ascii)
    : option (list ascii) :=
  match buffer with
  | [] => Some thresh
  | c :: rest =>
      if Ascii.eqb c "=" then scan_body rest (count + 1) thresh
      else if negb (count =? 0) then
        if count - 1 <? 10 then
          scan_body rest (count + 1) (<[Z.to_nat (count - 1) := c]> thresh)
        else None
      else scan_body rest count thresh
  end.

(** The string handed to [atof]. *)
Definition extracted_value (body : string) : option string :=
  match scan_body (list_ascii_of_string body) 0 (replicate 10 NUL) with
  | Some thresh => c_string thresh
  | None => None
  end.

(** [atof(s)] is [strtod(s, NULL)]: zero when no number is recognised. *)
Definition atof (s : string) : float :=
  if strtod_has_number s then strtod_value s else 0%float.

(** [post_set_threshold_handler], lines 413-436, on a request whose body
    is [body] ([content_len] is its length).  [None]: the request drives
    the handler out of [buffer[20]] or [thresh[10]]. *)
Definition post_set_threshold_handler (body : string) (d : device)
    : option device :=
  if (20 <? String.length body)%nat then None
  else match extracted_value body with
       | Some s => Some (set_threshold (atof s) (set_gpio_led false d))
       | None => None
       end.

(** ** Main loop *)

(** [configure_led], lines 77-84. *)
Definition configure_led : M unit := gpio_set_level false.

(** One iteration of the loop of [app_main], lines 570-576. *)
Definition sampling_cycle (mV rtc_us : Z) : M unit :=
  let* _ := get_temperature mV in
  let* _ := handle_threshold in
  store_temperature rtc_us.

(** [app_main] up to the loop, then one cycle per element of [samples]
    (raw ADC value, RTC microseconds). *)
Fixpoint sampling_loop (samples : list (Z * Z)) : M unit :=
  match samples with
  | [] => ret tt
  | (mV, rtc_us) :: rest =>
      let* _ := sampling_cycle mV rtc_us in sampling_loop rest
  end.

Definition app_main (time_at : Z -> Z) (samples : list (Z * Z)) : M unit :=
  let* _ := init_time time_at in
  let* _ := configure_led in
  sampling_loop samples.

End Firmware.

(** ** A reference C library

    Used to run the firmware on concrete inputs: UTC calendar (no time
    zone is configured by [main.c]), "%.2f" by exact rounding to two
    decimals (ties to even), [strtod] on plain decimal numerals. *)

Definition days_from_civil (y m d : Z) : Z :=
  let y' := if m <=? 2 then y - 1 else y in
  let era := y' / 400 in
  let yoe := y' - era * 400 in
  let doy := (153 * (if 2 <? m then m - 3 else m + 9) + 2) / 5 + d - 1 in
  let doe := yoe * 365 + yoe / 4 - yoe / 100 + doy in
  era * 146097 + doe - 719468.

Definition civil_from_days (days : Z) : Z * Z * Z :=
  let z := days + 719468 in
  let era := z / 146097 in
  let doe := z - era * 146097 in
  let yoe := (doe - doe / 1460 + doe / 36524 - doe / 146096) / 365 in
  let doy := doe - (365 * yoe + yoe / 4 - yoe / 100) in
  let mp := (5 * doy + 2) / 153 in
  let d := doy - (153 * mp + 2) / 5 + 1 in
  let m := if mp <? 10 then mp + 3 else mp - 9 in
  ((if m <=? 2 then yoe + era * 400 + 1 else yoe + era * 400), m, d).

Definition utc_localtime (time : Z) : tm :=
  let days := time / 86400 in
  let secs := time mod 86400 in
  let '(y, m, d) := civil_from_days days in
  Tm (secs mod 60) (secs / 60 mod 60) (secs / 3600) d (m - 1) (y - 1900)
     ((days + 4) mod 7) (days - days_from_civil y 1 1) 0.

Definition utc_mktime (ti : tm) : Z :=
  days_from_civil (tm_year ti + 1900) (tm_mon ti + 1) (tm_mday ti) * 86400
  + tm_hour ti * 3600 + tm_min ti * 60 + tm_sec ti.

Definition round_half_even (n d : Z) : Z :=
  let q := n / d in
  let r := n mod d in
  if (d <? 2 * r) || ((d =? 2 * r) && Z.odd q) then q + 1 else q.

Definition exact_printf_2f (x : float) : string :=
  match Prim2SF x with
  | S754_zero s => (if s then "-0.00" else "0.00")%string
  | S754_infinity s => (if s then "-inf" else "inf")%string
  | S754_nan => "nan"%string
  | S754_finite s m e =>
      let n := Z.pos m * 100 in
      let q := if 0 <=? e then n * 2 ^ e else round_half_even n (2 ^ (- e)) in
      (if s then "-" else "")%string
      +:+ pretty (q / 100) +:+ "." +:+ pad0 2 (q mod 100)
  end.

(** Digits at the start of [s]: their value after [acc], how many there
    are, and the rest of the string. *)
Fixpoint read_digits (s : string) (acc n : Z) : Z * Z * string :=
  match s with
  | String c r =>
      if is_digit c
      then read_digits r (10 * acc + (Z.of_nat (nat_of_ascii c) - 48)) (n + 1)
      else (acc, n, s)
  | EmptyString => (acc, n, s)
  end.

Definition decimal_strtod (s : string) : float :=
  let s1 := skip_spaces s in
  let negative := match s1 with
                  | String c _ => Ascii.eqb c "-"
                  | EmptyString => false
                  end in
  let '(ip, _, rest) := read_digits (skip_sign s1) 0 0 in
  let '(mant, k) :=
    match rest with
    | String c r =>
        if Ascii.eqb c "." then
          let '(m, k, _) := read_digits r ip 0 in (m, k)
        else (ip, 0)
    | EmptyString => (ip, 0)
    end in
  let v := (float_of_int mant / float_of_int (10 ^ k))%float in
  if negative then PrimFloat.opp v else v.

Definition newlib_utc : Libc :=
  Build_Libc utc_localtime utc_mktime exact_printf_2f decimal_strtod.

(** ** Executable checks and test harnesses *)

(** The converter on the samples [0 .. n-1]. *)
Definition temperature_table (n : nat) : list float :=
  map (fun i => temperature_of (Z.of_nat i)) (seq 0 n).

(** Every element is at most itself and each element before it. *)
Fixpoint descending (l : list float) : bool :=
  match l with
  | [] => true
  | x :: r => forallb (fun y => (y <=? x)%float) l && descending r
  end.

(** Every element is strictly below each element before it. *)
Fixpoint strictly_descending (l : list float) : bool :=
  match l with
  | [] => true
  | x :: r => forallb (fun y => (y <? x)%float) r && strictly_descending r
  end.

(** A reading: the temperature of the cycle and the RTC value at which
    [store_temperature] runs. *)
Definition reading : Type := float * Z.

(** Appending one reading: the sampling cycle's [store_temperature] on
    the temperature just measured; [refusals] is the fault script of the
    call. *)
Definition append `{Libc} (refusals : list esp_err_t) (r : reading)
    (d : device) : device :=
  exec (store_temperature (snd r))
       (set_faults refusals (set_temperature (fst r) d)).

Definition appends `{Libc} (rs : list reading) (d : device) : device :=
  fold_left (fun d r => append [] r d) rs d.

(** The record a reading is stored as. *)
Definition record `{Libc} (d : device) (r : reading) : string :=
  record_of (exec (get_time (snd r)) (set_temperature (fst r) d)).

(** The answer of the "last 10" request, [s] being the value its
    uninitialised capacity variable holds. *)
Definition last_10 (s : Z) (d : device) : list string :=
  eval (get_last_10_temperatures_from_nvm_handler s) d.

(** The records the partition holds. *)
Definition stored_readings (d : device) : list string :=
  omap (fun kv => match snd kv with
                  | NvsStr s => Some s
                  | NvsU16 _ => None
                  end) (map_to_list (nvs d)).

(** The timestamp the specification describes, from a reference wall
    time and a reference tick taken together. *)
Definition claimed_timestamp (reference_wall_time reference_ticks now_ticks : Z)
    : Z :=
  reference_wall_time + (now_ticks - reference_ticks).

(** The rows of [temperature_arr] and the capacity after the lookup of
    the [j]-th newest key: a stored string that fits the capacity fills
    row [j]; a stored string sets the capacity to its size; a miss
    changes nothing. *)
Definition read_step (m : gmap string nvs_value) (count : Z)
    (st : list string * Z) (j : nat) : list string * Z :=
  match m !! temperature_key (count - Z.of_nat j) with
  | Some (NvsStr v) =>
      if snd st <? data_size v then (fst st, data_size v)
      else (<[j := v]> (fst st), data_size v)
  | _ => st
  end.

(** The capacity the [k]-th lookup of a request receives. *)
Definition capacity_before (m : gmap string nvs_value) (count s : Z)
    (k : nat) : Z :=
  snd (fold_left (read_step m count) (seq 0 k) ([], s)).

(** The outcome the [k]-th fallible call of a script receives. *)
Definition outcome (script : list esp_err_t) (k : nat) : esp_err_t :=
  nth k script ESP_OK.


(** Test readings: [20 + k] degrees, taken [2 k] seconds after the RTC
    counter started. *)
Definition sample_reading (k : Z) : reading :=
  (float_of_int (20 + k), k * 2000000).

(** The device an append leaves when its last calls succeed, given the
    partition it ends with and the index of the key it built. *)
Definition appended `{Libc} (r : reading) (d : device)
    (m : gmap string nvs_value) (index : Z) : device :=
  set_overrun (overrun d || key_overrun index)
    (set_faults []
       (set_err ESP_OK
          (set_nvs m
             (set_time_as_string
                (format_time (localtime (actual_time d (snd r))))
                (set_temperature (fst r) d))))).

(** A device that has booted and whose clock base is [t0]. *)
Definition synced (t0 : Z) : device := set_t t0 boot.

(** A device in the Alarmed state: threshold 25, last sample 30.5. *)
Definition alarmed : device :=
  set_gpio_led true
    (set_threshold_overcome true
       (set_threshold 25 (set_temperature 30.5 boot))).

(** Three readings stored since boot. *)
Definition three_stored : device :=
  @appends newlib_utc (map sample_reading [1; 2; 3]) (synced 1702645200).

(** Fifteen readings whose two newest records differ in length: 10.50
    degrees, then 9.50 degrees. *)
Definition mixed_readings : list reading :=
  map sample_reading [1; 2; 3; 4; 5; 6; 7; 8; 9; 10; 11; 12; 13]
  ++ [(10.5%float, 28000000); (9.5%float, 30000000)].

Definition fifteen_mixed : device :=
  @appends newlib_utc mixed_readings (synced 1702645200).

(** Eleven readings stored since boot. *)
Definition eleven_stored : device :=
  @appends newlib_utc (map sample_reading [1; 2; 3; 4; 5; 6; 7; 8; 9; 10; 11])
           (synced 1702645200).

(** Eleven readings, a "last 10" request whose capacity variable
    happens to hold 48, a twelfth append whose record write is refused,
    and a thirteenth append. *)
Definition after_recovery : device :=
  @append newlib_utc [] (sample_reading 13)
    (@append newlib_utc [ESP_OK; ESP_ERR_NVS_NOT_ENOUGH_SPACE]
       (sample_reading 12)
       (exec (get_last_10_temperatures_from_nvm_handler 48) eleven_stored)).

(** A broken-down time whose fields are in their calendar ranges, with a
    year between 0 and 9999. *)
Definition tm_in_range (time : tm) : bool :=
  (0 <=? tm_year time + 1900) && (tm_year time + 1900 <=? 9999)
  && (0 <=? tm_mon time) && (tm_mon time <=? 11)
  && (1 <=? tm_mday time) && (tm_mday time <=? 31)
  && (0 <=? tm_hour time) && (tm_hour time <=? 23)
  && (0 <=? tm_min time) && (tm_min time <=? 59)
  && (0 <=? tm_sec time) && (tm_sec time <=? 60).

(** What the history store leaves alone: the measured temperature, the
    rows of the last answer, the threshold state, the LED and the clock
    base. *)
Definition same_controller (d d' : device) : Prop :=
  temperature d' = temperature d
  /\ temperature_arr d' = temperature_arr d
  /\ threshold d' = threshold d
  /\ threshold_overcome d' = threshold_overcome d
  /\ t d' = t d
  /\ gpio_led d' = gpio_led d.

(** What the "last 10" query leaves alone: the partition and everything
    but the rows, [err] and the fault script. *)
Definition same_storage (d d' : device) : Prop :=
  nvs d' = nvs d
  /\ temperature d' = temperature d
  /\ threshold d' = threshold d
  /\ threshold_overcome d' = threshold_overcome d
  /\ t d' = t d
  /\ time_as_string d' = time_as_string d
  /\ gpio_led d' = gpio_led d.

(** A computation that keeps a relation between the state it starts in
    and the state it ends in. *)
Definition keeps (R : device -> device -> Prop) {A} (m : M A) : Prop :=
  forall d, R d (snd (m d)).

(** * Properties *)

(** ** Converter *)

Lemma forallb_nth {A} (p : A -> bool) (l : list A) (x0 : A) (i : nat) :
  forallb p l = true -> (i < length l)%nat -> p (nth i l x0) = true.
Proof.
  intros Hall Hi. rewrite forallb_forall in Hall.
  apply Hall, nth_In, Hi.
Qed.

Lemma descending_nth (l : list float) :
  descending l = true ->
  forall i j, (i <= j)%nat -> (j < length l)%nat ->
  (nth j l 0 <=? nth i l 0)%float = true.
Proof.
  induction l as [|x r IH]; intros Hd i j Hij Hj; [simpl in Hj; lia|].
  cbn [descending] in Hd. apply andb_true_iff in Hd as [Hx Hr].
  destruct i as [|i].
  - exact (forallb_nth _ (x :: r) 0%float j Hx Hj).
  - destruct j as [|j]; [lia|]. cbn [nth].
    apply IH; [exact Hr | lia | simpl in Hj; lia].
Qed.

Lemma strictly_descending_nth (l : list float) :
  strictly_descending l = true ->
  forall i j, (i < j)%nat -> (j < length l)%nat ->
  (nth j l 0 <? nth i l 0)%float = true.
Proof.
  induction l as [|x r IH]; intros Hd i j Hij Hj; [simpl in Hj; lia|].
  cbn [strictly_descending] in Hd. apply andb_true_iff in Hd as [Hx Hr].
  destruct j as [|j]; [lia|]. destruct i as [|i]; cbn [nth].
  - apply (forallb_nth _ r 0%float j Hx). simpl in Hj; lia.
  - apply IH; [exact Hr | lia | simpl in Hj; lia].
Qed.

Lemma temperature_table_length n : length (temperature_table n) = n.
Proof. unfold temperature_table. now rewrite length_map, length_seq. Qed.

Lemma temperature_table_nth n i :
  (i < n)%nat ->
  nth i (temperature_table n) 0%float = temperature_of (Z.of_nat i).
Proof.
  intros Hi. unfold temperature_table.
  rewrite (nth_indep _ 0%float (temperature_of (Z.of_nat 0)))
    by now rewrite length_map, length_seq.
  rewrite (map_nth (fun i => temperature_of (Z.of_nat i))).
  now rewrite seq_nth.
Qed.

Lemma table_descending : descending (temperature_table 4096) = true.
Proof. vm_compute. reflexivity. Qed.

Lemma table_strictly_descending :
  strictly_descending (temperature_table 4096) = true.
Proof. vm_compute. reflexivity. Qed.

Lemma table_finite :
  forallb PrimFloat.is_finite (temperature_table 4096) = true.
Proof. vm_compute. reflexivity. Qed.

Lemma get_temperature_value mV d :
  temperature (exec (get_temperature mV) d) = temperature_of mV.
Proof. reflexivity. Qed.

(** C9, as the code has it: for raw samples [0 <= raw1 <= raw2 <= 4095]
    the temperature [get_temperature] stores is finite, and it does not
    increase with the raw sample: the temperature for [raw2] is at most
    the one for [raw1]. *)
Theorem get_temperature_finite_nonincreasing (raw1 raw2 : Z) (d : device) :
  0 <= raw1 -> raw1 <= raw2 -> raw2 <= 4095 ->
  PrimFloat.is_finite (temperature (exec (get_temperature raw1) d)) = true
  /\ (temperature (exec (get_temperature raw2) d)
       <=? temperature (exec (get_temperature raw1) d))%float = true.
Proof.
  intros H0 H12 H2. rewrite !get_temperature_value.
  rewrite <- (Z2Nat.id raw1), <- (Z2Nat.id raw2) by lia.
  rewrite <- !(temperature_table_nth 4096) by lia.
  split.
  - apply forallb_nth; [exact table_finite|].
    rewrite temperature_table_length. lia.
  - apply descending_nth; [exact table_descending | lia |].
    rewrite temperature_table_length. lia.
Qed.

Lemma get_temperature_finite_nonincreasing_witness :
  PrimFloat.is_finite (temperature (exec (get_temperature 1000) boot)) = true
  /\ (temperature (exec (get_temperature 3000) boot)
       <=? temperature (exec (get_temperature 1000) boot))%float = true.
Proof.
  apply (get_temperature_finite_nonincreasing 1000 3000 boot); lia.
Defined.

(** C9 as stated fails: the conversion is not non-decreasing, raw sample
    1 gives a lower temperature than raw sample 0. *)
Lemma get_temperature_not_nondecreasing :
  ~ (forall (raw1 raw2 : Z) (d : device),
        0 <= raw1 -> raw1 <= raw2 -> raw2 <= 4095 ->
        (temperature (exec (get_temperature raw1) d)
         <=? temperature (exec (get_temperature raw2) d))%float = true).
Proof.
  intros H. specialize (H 0 1 boot). vm_compute in H.
  assert (false = true) by (apply H; discriminate). discriminate.
Qed.

(** ** Threshold controller *)

(** C1, as the code has it: with threshold 25.0 and the band of 1.0, the
    readings 24.9, 25.1, 24.95, 23.9, 24.95 from the Normal state give
    the armed flags false, true, true, false, false: the alarm clears at
    23.9 and stays clear at the last 24.95. *)
Theorem hysteresis_trace (d : device) :
  alarm_trace [24.9; 25.1; 24.95; 23.9; 24.95]%float
              (set_threshold_overcome false (set_threshold 25 d))
  = [false; true; true; false; false].
Proof. destruct d. vm_compute. reflexivity. Qed.

(** C1 as stated fails: the trace is not false, true, true, true, false. *)
Lemma hysteresis_trace_not_as_claimed :
  alarm_trace [24.9; 25.1; 24.95; 23.9; 24.95]%float
              (set_threshold_overcome false (set_threshold 25 boot))
  <> [false; true; true; true; false].
Proof. vm_compute. discriminate. Qed.

(** ** The set-threshold request *)

Lemma scan_body_without_equals (buffer thresh : list ascii) :
  ~ In "="%char buffer -> scan_body buffer 0 thresh = Some thresh.
Proof.
  induction buffer as [|c rest IH]; intros Hno; [reflexivity|].
  cbn [scan_body]. destruct (Ascii.eqb_spec c "="%char) as [->|_].
  - exfalso. apply Hno. now left.
  - cbn. apply IH. intros Hin. apply Hno. now right.
Qed.

Lemma extracted_value_without_equals (body : string) :
  ~ In "="%char (list_ascii_of_string body) ->
  extracted_value body = Some EmptyString.
Proof.
  intros Hno. unfold extracted_value.
  now rewrite scan_body_without_equals.
Qed.

Section SetThreshold.
Context {libc : Libc}.

Lemma unparseable_sets_zero (body : string) (d : device) :
  (String.length body <= 20)%nat ->
  ~ In "="%char (list_ascii_of_string body)
  \/ (exists s, extracted_value body = Some s
                /\ strtod_has_number s = false) ->
  exists d', post_set_threshold_handler body d = Some d'
             /\ threshold d' = 0%float.
Proof.
  intros Hlen Hcase.
  assert (exists s, extracted_value body = Some s
                    /\ strtod_has_number s = false) as (s & Hs & Hnum).
  { destruct Hcase as [Hno|H]; [|exact H].
    exists EmptyString. split; [|reflexivity].
    now apply extracted_value_without_equals. }
  unfold post_set_threshold_handler.
  destruct (Nat.ltb_spec 20 (String.length body)) as [Hlt|_]; [lia|].
  rewrite Hs. eexists. split; [reflexivity|].
  cbn. unfold atof. now rewrite Hnum.
Qed.

(** C10 on the code: take a request body that holds no '=', or whose
    extracted value, wherever the scan yields one, is not recognised as
    a number by [strtod].  When the body is at most 20 bytes long and
    its value leaves a terminator in [thresh[10]], the handler sets the
    threshold to 0.0.  A longer body is received past the end of
    [buffer[20]], and a value of ten characters or more leaves
    [thresh[10]] without terminator, so that [atof] reads past its end:
    the handler then has no defined effect, and in particular does not
    set the threshold to 0.0. *)
Theorem unparseable_threshold_zero_or_overrun (body : string) (d : device) :
  ~ In "="%char (list_ascii_of_string body)
  \/ (forall s, extracted_value body = Some s ->
                strtod_has_number s = false) ->
  ((String.length body <= 20)%nat -> extracted_value body <> None ->
   exists d', post_set_threshold_handler body d = Some d'
              /\ threshold d' = 0%float)
  /\ ((20 < String.length body)%nat \/ extracted_value body = None ->
      post_set_threshold_handler body d = None).
Proof.
  intros Hcase. split.
  - intros Hlen Hsome. apply unparseable_sets_zero; [exact Hlen|].
    destruct Hcase as [Hno|Hnum]; [now left|right].
    destruct (extracted_value body) as [s|] eqn:Hs; [|congruence].
    exists s. split; [reflexivity|now apply Hnum].
  - intros Hout. unfold post_set_threshold_handler.
    destruct (Nat.ltb_spec 20 (String.length body)) as [_|Hle];
      [reflexivity|].
    destruct Hout as [Hlen|Hnone]; [lia|]. now rewrite Hnone.
Qed.

End SetThreshold.

Lemma unparseable_threshold_zero_or_overrun_witness :
  (exists d', @post_set_threshold_handler newlib_utc "threshold=abc" alarmed
              = Some d'
              /\ threshold d' = 0%float)
  /\ @post_set_threshold_handler newlib_utc "aaaaaaaaaaaaaaaaaaaaa" alarmed
     = None
  /\ @post_set_threshold_handler newlib_utc "threshold=abcdefghij" alarmed
     = None.
Proof.
  split; [|split].
  - apply (@unparseable_threshold_zero_or_overrun newlib_utc "threshold=abc"
             alarmed).
    + right. intros s Hs. vm_compute in Hs. now injection Hs as <-.
    + vm_compute. lia.
    + vm_compute. discriminate.
  - apply (@unparseable_threshold_zero_or_overrun newlib_utc
             "aaaaaaaaaaaaaaaaaaaaa" alarmed).
    + left. vm_compute. intuition discriminate.
    + left. vm_compute. lia.
  - apply (@unparseable_threshold_zero_or_overrun newlib_utc
             "threshold=abcdefghij" alarmed).
    + right. intros s Hs. vm_compute in Hs. discriminate.
    + right. vm_compute. reflexivity.
Defined.

(** C2 on the code: a set-threshold request received in the Alarmed state
    drives the LED low and stores the new threshold 31, but leaves
    [threshold_overcome] set; the next sampling cycle, at 30.5 degrees,
    turns the LED on again although 30.5 is below the new threshold. *)
Theorem set_threshold_leaves_latch :
  exists d', @post_set_threshold_handler newlib_utc "threshold=31" alarmed
             = Some d'
             /\ gpio_led d' = false
             /\ threshold d' = 31%float
             /\ threshold_overcome d' = true
             /\ gpio_led (exec handle_threshold d') = true.
Proof. eexists. split; [reflexivity|]. vm_compute. repeat split. Qed.

(** ** Clock *)

Lemma to_int64_small (z : Z) :
  - 9223372036854775808 <= z < 9223372036854775808 -> to_int64 z = z.
Proof.
  intros Hz. unfold to_int64, wrap64.
  destruct (Z.ltb_spec (z mod 18446744073709551616) 9223372036854775808)
    as [Hlt|Hge].
  - destruct (Z.le_gt_cases 0 z) as [Hpos|Hneg].
    + rewrite Z.mod_small; lia.
    + exfalso.
      assert (z mod 18446744073709551616 = z + 18446744073709551616); [|lia].
      symmetry. apply (Z.mod_unique _ _ (-1)); lia.
  - destruct (Z.le_gt_cases 0 z) as [Hpos|Hneg].
    + rewrite Z.mod_small in Hge; lia.
    + assert (z mod 18446744073709551616 = z + 18446744073709551616); [|lia].
      symmetry. apply (Z.mod_unique _ _ (-1)); lia.
Qed.

Lemma rtc_sec_range (rtc_us : Z) : 0 <= rtc_sec rtc_us < 18446744073710.
Proof.
  unfold rtc_sec, wrap64.
  pose proof (Z.mod_pos_bound rtc_us 18446744073709551616 eq_refl) as Hm.
  split.
  - apply Z.div_pos; lia.
  - apply Z.div_lt_upper_bound; lia.
Qed.

Section Clock.
Context {libc : Libc}.

Lemma init_time_loop_counts_up (time_at : Z -> Z) (fuel : nat) :
  forall (timeinfo : tm) (retry : Z),
    retry <= snd (init_time_loop fuel time_at timeinfo retry).
Proof.
  induction fuel as [|fuel IH]; intros timeinfo retry; cbn [init_time_loop].
  - cbn. lia.
  - destruct ((tm_year timeinfo <? 2016 - 1900) && (retry + 1 <? 10));
      [|cbn; lia].
    specialize (IH (localtime (time_at (retry + 1))) (retry + 1)). lia.
Qed.

Lemma init_time_loop_step (time_at : Z -> Z) (fuel : nat) (timeinfo : tm)
    (retry : Z) :
  init_time_loop (S fuel) time_at timeinfo retry
  = if (tm_year timeinfo <? 2016 - 1900) && (retry + 1 <? 10)
    then init_time_loop fuel time_at (localtime (time_at (retry + 1)))
                        (retry + 1)
    else (timeinfo, retry).
Proof. reflexivity. Qed.

Lemma init_time_polls_once (time_at : Z -> Z) :
  1 <= snd (init_time_loop 10 time_at tm_zero 0).
Proof.
  rewrite (init_time_loop_step time_at 9).
  change ((tm_year tm_zero <? 2016 - 1900) && (0 + 1 <? 10)) with true.
  cbv iota. apply (init_time_loop_counts_up time_at 9).
Qed.

(** C8 on the code: [init_time] stores the wall time of the sync and no
    tick; [get_time] adds the whole RTC time to it.  Every poll of
    [init_time] follows a delay of one second, so the RTC counter at the
    sync point, [rtc_sync], is at least one second per poll.  At every
    later counter value the instant [get_time] formats exceeds the
    claimed reference_wall_time + (now - reference_ticks) by the seconds
    the counter showed at the sync point, which is at least 1. *)
Theorem get_time_counts_from_boot (time_at : Z -> Z) (d : device)
    (rtc_sync rtc_now : Z) :
  1000000 * snd (init_time_loop 10 time_at tm_zero 0) <= rtc_sync ->
  rtc_sync <= rtc_now -> rtc_now < 18446744073709551616 ->
  - 4611686018427387904 <= t (exec (init_time time_at) d)
    < 4611686018427387904 ->
  1 <= rtc_sec rtc_sync
  /\ actual_time (exec (init_time time_at) d) rtc_now
     = claimed_timestamp (t (exec (init_time time_at) d))
                         (rtc_sec rtc_sync) (rtc_sec rtc_now)
       + rtc_sec rtc_sync.
Proof.
  intros Hsync Hnow Hmax Ht.
  pose proof (init_time_polls_once time_at) as Hpolls.
  pose proof (rtc_sec_range rtc_now) as Hs.
  assert (1 <= rtc_sec rtc_sync) as Hone.
  { unfold rtc_sec, wrap64. rewrite Z.mod_small by lia.
    apply Z.div_le_lower_bound; lia. }
  split; [exact Hone|].
  unfold actual_time, claimed_timestamp.
  rewrite to_int64_small by lia. lia.
Qed.

End Clock.

Lemma get_time_counts_from_boot_witness :
  1 <= rtc_sec 1000000
  /\ actual_time (exec (@init_time newlib_utc (fun _ => 1702641600)) boot)
                 7000000
     = claimed_timestamp
         (t (exec (@init_time newlib_utc (fun _ => 1702641600)) boot))
         (rtc_sec 1000000) (rtc_sec 7000000)
       + rtc_sec 1000000.
Proof.
  apply (@get_time_counts_from_boot newlib_utc (fun _ => 1702641600) boot
           1000000 7000000).
  - vm_compute. discriminate.
  - lia.
  - lia.
  - vm_compute. split; [discriminate|reflexivity].
Defined.

(** ** History store: keys *)

Lemma snprintf_short (size : nat) (s : string) :
  (String.length s <= size - 1)%nat -> snprintf size s = s.
Proof.
  unfold snprintf. generalize (size - 1)%nat as n. clear size.
  induction s as [|c s IH]; intros n Hn; destruct n; cbn in *;
    try reflexivity; try lia.
  f_equal. apply IH. lia.
Qed.

Lemma pretty_N_go_length (n : nat) (x : N) (s : string) :
  (x < 10 ^ N.of_nat n)%N ->
  (String.length (pretty_N_go x s) <= n + String.length s)%nat.
Proof.
  revert x s. induction n as [|n IH]; intros x s Hx.
  - assert (x = 0%N) as -> by (cbn in Hx; lia).
    rewrite pretty_N_go_0. lia.
  - destruct (N.eq_dec x 0%N) as [->|Hpos].
    + rewrite pretty_N_go_0. lia.
    + rewrite pretty_N_go_step by lia.
      etransitivity; [apply IH|cbn; lia].
      apply N.Div0.div_lt_upper_bound.
      replace (N.of_nat (S n)) with (N.succ (N.of_nat n)) in Hx by lia.
      now rewrite N.pow_succ_r' in Hx.
Qed.

Lemma pretty_Z_length (n : nat) (z : Z) :
  (1 <= n)%nat -> 0 <= z < 10 ^ Z.of_nat n ->
  (String.length (pretty z) <= n)%nat.
Proof.
  intros Hn Hz. destruct z as [|p|p]; [cbn; lia| |lia].
  change (pretty (Z.pos p)) with (pretty (N.pos p)).
  unfold pretty, pretty_N. destruct (decide (N.pos p = 0%N)); [lia|].
  etransitivity; [apply (pretty_N_go_length n)|cbn; lia].
  apply N2Z.inj_lt. rewrite N2Z.inj_pow, nat_N_Z. cbn. lia.
Qed.

Lemma pretty_counter_length (k : Z) :
  0 <= k < 65536 -> (String.length (pretty k) <= 5)%nat.
Proof. intros Hk. apply pretty_Z_length; [lia|]. cbn. lia. Qed.

Lemma temperature_key_counter (k : Z) :
  0 <= k < 65536 -> temperature_key k = "t" +:+ pretty k.
Proof.
  intros Hk. unfold temperature_key, memory_temperature.
  rewrite snprintf_short; [reflexivity|].
  pose proof (pretty_counter_length k Hk). lia.
Qed.

Lemma temperature_key_inj (j k : Z) :
  0 <= j < 65536 -> 0 <= k < 65536 ->
  temperature_key j = temperature_key k -> j = k.
Proof.
  intros Hj Hk. rewrite !temperature_key_counter by assumption.
  intros Heq. injection Heq as Heq.
  change (pretty j = pretty k) in Heq. now apply (inj pretty) in Heq.
Qed.

Lemma temperature_key_not_count (k : Z) : temperature_key k <> memory_count.
Proof.
  unfold temperature_key, memory_temperature, memory_count. discriminate.
Qed.

Lemma to_int32_small (z : Z) : 0 <= z < 2147483648 -> to_int32 z = z.
Proof.
  intros Hz. unfold to_int32, wrap32. rewrite Z.mod_small by lia.
  destruct (Z.ltb_spec z 2147483648); lia.
Qed.


Lemma key_fits_below_ten (k : Z) : 0 <= k <= 9 -> key_overrun k = false.
Proof.
  intros Hk.
  assert (k = 0 \/ k = 1 \/ k = 2 \/ k = 3 \/ k = 4 \/ k = 5 \/ k = 6
          \/ k = 7 \/ k = 8 \/ k = 9) as Hcases by lia.
  repeat (destruct Hcases as [-> | Hcases]; [vm_compute; reflexivity|]).
  subst k. vm_compute. reflexivity.
Qed.

Lemma pretty_N_go_length_ge (n : nat) (x : N) (s : string) :
  (x < 10 ^ N.of_nat n)%N ->
  (String.length s <= String.length (pretty_N_go x s))%nat.
Proof.
  revert x s. induction n as [|n IH]; intros x s Hx.
  - assert (x = 0%N) as -> by (cbn in Hx; lia).
    rewrite pretty_N_go_0. lia.
  - destruct (N.eq_dec x 0%N) as [->|Hpos].
    + rewrite pretty_N_go_0. lia.
    + rewrite pretty_N_go_step by lia.
      etransitivity; [|apply IH].
      * cbn. lia.
      * apply N.Div0.div_lt_upper_bound.
        replace (N.of_nat (S n)) with (N.succ (N.of_nat n)) in Hx by lia.
        now rewrite N.pow_succ_r' in Hx.
Qed.

Lemma pretty_Z_two_digits (n : nat) (z : Z) :
  10 <= z < 10 ^ Z.of_nat n -> (2 <= String.length (pretty z))%nat.
Proof.
  intros Hz. destruct z as [|p|p]; [lia| |lia].
  change (pretty (Z.pos p)) with (pretty (N.pos p)).
  unfold pretty, pretty_N. destruct (decide (N.pos p = 0%N)); [lia|].
  rewrite pretty_N_go_step by lia.
  rewrite pretty_N_go_step.
  2:{ apply N.div_str_pos. lia. }
  etransitivity; [|apply (pretty_N_go_length_ge n)].
  - cbn. lia.
  - apply N.Div0.div_lt_upper_bound, N.Div0.div_lt_upper_bound.
    apply N.lt_le_trans with (10 ^ N.of_nat n)%N.
    + apply N2Z.inj_lt. rewrite N2Z.inj_pow, nat_N_Z. cbn. lia.
    + assert (0 < 10 ^ N.of_nat n)%N
        by (apply N.neq_0_lt_0, N.pow_nonzero; lia).
      lia.
Qed.

Lemma key_overrun_from_ten (k : Z) :
  10 <= k < 65536 -> key_overrun k = true.
Proof.
  intros Hk. unfold key_overrun. apply Nat.ltb_lt.
  rewrite temperature_key_counter by lia.
  pose proof (pretty_Z_two_digits 5 k) as Hlen.
  assert (2 <= String.length (pretty k))%nat by (apply Hlen; cbn; lia).
  change temperature_key_size with 3%nat.
  change (String.length ("t" +:+ pretty k))
    with (S (String.length (pretty k))).
  lia.
Qed.
(** ** History store: one append *)

Ltac run_firmware :=
  cbv [append exec eval store_temperature clear_memory assign_err
       nvs_open nvs_get_u16 nvs_get_str nvs_set_str nvs_set_u16 nvs_erase_all
       nvs_commit next_fault get_time bind ret get modify is_ok record
       appended outcome nth
       set_temperature set_temperature_arr set_threshold
       set_threshold_overcome set_t set_time_as_string set_err set_gpio_led
       set_nvs set_faults set_overrun build_key temperature temperature_arr
       threshold threshold_overcome t time_as_string err gpio_led nvs faults
       overrun fst snd].

(** Case analysis on the lookup of the counter, once the goal mentions it. *)
Ltac with_counter m Hc :=
  revert Hc; generalize (m !! memory_count);
  let o := fresh "o" in let v := fresh "v" in let s := fresh "s" in
  intros o Hc; destruct o as [[v|s]|]; try discriminate.

Section History.
Context {libc : Libc}.

Lemma append_ok (r : reading) (d : device) (c : Z) :
  nvs d !! memory_count = Some (NvsU16 c) ->
  append [] r d
  = appended r d
      (<[memory_count := NvsU16 (wrap16 (c + 1))]>
         (<[temperature_key (wrap16 (c + 1)) := NvsStr (record d r)]>
            (nvs d)))
      (wrap16 (c + 1)).
Proof.
  intros Hc.
  destruct d as [tmp arr th ov t0 ts e0 led m fl orn], r as [x rtc].
  cbn in Hc. run_firmware. with_counter m Hc.
  assert (c = v) as -> by congruence. reflexivity.
Qed.

Lemma append_first (r : reading) (d : device) :
  nvs d !! memory_count = None ->
  append [] r d
  = appended r d
      (<[memory_count := NvsU16 0]>
         (<[temperature_key 0 := NvsStr (record d r)]> ∅))
      0.
Proof.
  intros Hc.
  destruct d as [tmp arr th ov t0 ts e0 led m fl orn], r as [x rtc].
  cbn in Hc. run_firmware. with_counter m Hc.
  reflexivity.
Qed.

Lemma append_record_refused (e : esp_err_t) (r : reading) (d : device)
    (c : Z) :
  nvs d !! memory_count = Some (NvsU16 c) -> is_ok e = false ->
  append [ESP_OK; e] r d
  = appended r d {[ memory_count := NvsU16 0 ]} (wrap16 (c + 1)).
Proof.
  intros Hc He.
  destruct d as [tmp arr th ov t0 ts e0 led m fl orn], r as [x rtc].
  cbn in Hc. run_firmware. with_counter m Hc.
  assert (c = v) as -> by congruence.
  destruct e; try discriminate; reflexivity.
Qed.

Lemma append_counter_refused (e : esp_err_t) (r : reading) (d : device)
    (c : Z) :
  nvs d !! memory_count = Some (NvsU16 c) -> is_ok e = false ->
  append [ESP_OK; ESP_OK; e] r d = appended r d ∅ (wrap16 (c + 1)).
Proof.
  intros Hc He.
  destruct d as [tmp arr th ov t0 ts e0 led m fl orn], r as [x rtc].
  cbn in Hc. run_firmware. with_counter m Hc.
  assert (c = v) as -> by congruence.
  destruct e; try discriminate; reflexivity.
Qed.

Lemma record_same_clock (d d' : device) (r : reading) :
  t d' = t d -> record d' r = record d r.
Proof.
  intros Ht. destruct d, d', r. cbn in Ht. subst.
  reflexivity.
Qed.


Lemma append_record_write_refused (script : list esp_err_t) (r : reading)
    (d : device) (c : Z) :
  nvs d !! memory_count = Some (NvsU16 c) ->
  is_ok (outcome script 0) = true -> is_ok (outcome script 1) = false ->
  is_ok (outcome script 2) = true -> is_ok (outcome script 3) = true ->
  nvs (append script r d) = {[ memory_count := NvsU16 0 ]}.
Proof.
  intros Hc H0 H1 H2 H3.
  destruct d as [tmp arr th ov t0 ts e0 led m fl orn], r as [x rtc].
  cbn in Hc.
  destruct script as [|a0 [|a1 [|a2 [|a3 [|a4 rest]]]]];
    cbn in H0, H1, H2, H3; try discriminate;
    try (destruct a0; try discriminate);
    try (destruct a1; try discriminate);
    try (destruct a2; try discriminate);
    try (destruct a3; try discriminate);
    run_firmware; with_counter m Hc; reflexivity.
Qed.


End History.
Section Appends.
Context {libc : Libc}.

Lemma appends_snoc (rs : list reading) (r : reading) (d : device) :
  appends (rs ++ [r]) d = append [] r (appends rs d).
Proof. unfold appends. now rewrite fold_left_app. Qed.

Lemma appends_state (d0 : device) (rs : list reading) (r0 : reading) :
  nvs d0 !! memory_count = None -> faults d0 = [] ->
  1 <= Z.of_nat (length rs) <= 65536 ->
  nvs (appends rs d0) !! memory_count
  = Some (NvsU16 (Z.of_nat (length rs) - 1))
  /\ (forall k, (k < length rs)%nat ->
        nvs (appends rs d0) !! temperature_key (Z.of_nat k)
        = Some (NvsStr (record d0 (nth k rs r0))))
  /\ faults (appends rs d0) = []
  /\ t (appends rs d0) = t d0
  /\ temperature_arr (appends rs d0) = temperature_arr d0
  /\ (Z.of_nat (length rs) <= 10 -> overrun (appends rs d0) = overrun d0)
  /\ (11 <= Z.of_nat (length rs) -> overrun (appends rs d0) = true).
Proof.
  intros Hnone Hf. induction rs as [|r rs IH] using rev_ind;
    intros Hlen; [cbn in Hlen; lia|].
  rewrite appends_snoc, length_app. rewrite length_app in Hlen.
  cbn [length] in Hlen |- *.
  destruct rs as [|r1 rs1].
  - (* the first append *)
    cbn [appends fold_left app length].
    change (Z.of_nat (0 + 1) - 1) with 0.
    assert (append [] r d0 = append [] r (set_faults [] d0)) as ->.
    { destruct d0. cbn in Hf. now subst. }
    rewrite append_first by exact Hnone.
    change (nvs (appended r (set_faults [] d0) ?m ?i)) with m.
    split; [reflexivity|]. split.
    { intros k Hk. assert (k = 0%nat) as -> by (cbn in Hk; lia).
      rewrite lookup_insert_ne by (symmetry; apply temperature_key_not_count).
      rewrite lookup_insert_eq. cbn [nth]. reflexivity. }
    split; [reflexivity|]. split; [reflexivity|]. split; [reflexivity|].
    split; [|lia]. intros _.
    change (overrun (appended r (set_faults [] d0) ?m 0))
      with (overrun d0 || key_overrun 0).
    change (key_overrun 0) with false. apply orb_false_r.
  - (* a later append *)
    set (d := appends (r1 :: rs1) d0) in *.
    set (n := length (r1 :: rs1)) in *.
    assert (1 <= Z.of_nat n) by (subst n; cbn [length]; lia).
    destruct IH as (Hc & Hkeys & Hfl & Ht & Harr & Hfit & Hover); [lia|].
    assert (append [] r d = append [] r (set_faults [] d)) as ->.
    { destruct d. cbn in Hfl. now subst. }
    rewrite (append_ok r (set_faults [] d) _ Hc).
    change (nvs (appended r (set_faults [] d) ?m ?i)) with m.
    change (overrun (appended r (set_faults [] d) ?m ?i))
      with (overrun d || key_overrun i).
    assert (wrap16 (Z.of_nat n - 1 + 1) = Z.of_nat n) as ->.
    { unfold wrap16. rewrite Z.mod_small; lia. }
    split; [|split; [|split; [|split; [|split; [|split]]]]].
    + rewrite lookup_insert_eq. do 2 f_equal. lia.
    + intros k Hk.
      rewrite lookup_insert_ne by (symmetry; apply temperature_key_not_count).
      destruct (Nat.eq_dec k n) as [->|Hne].
      * rewrite lookup_insert_eq. do 2 f_equal.
        rewrite app_nth2 by (fold n; lia). fold n.
        rewrite Nat.sub_diag. cbn [nth].
        now apply record_same_clock.
      * rewrite lookup_insert_ne
          by (intros Heq; apply temperature_key_inj in Heq; lia).
        change (nvs (set_faults [] d)) with (nvs d).
        rewrite Hkeys by lia.
        rewrite app_nth1 by (fold n; lia). reflexivity.
    + reflexivity.
    + exact Ht.
    + exact Harr.
    + intros Hten. rewrite Hfit by lia.
      rewrite key_fits_below_ten by lia. apply orb_false_r.
    + intros Heleven. destruct (Z.eq_dec (Z.of_nat n) 10) as [Heq|Hne].
      * rewrite key_overrun_from_ten by lia. apply orb_true_r.
      * rewrite Hover by lia. reflexivity.
Qed.

End Appends.
(** ** History store: the "last 10" query *)

Lemma list_insert_nth_same (arr : list string) (j : nat) :
  <[j := nth j arr EmptyString]> arr = arr.
Proof.
  revert j. induction arr as [|x arr IH]; intros [|j]; cbn; try reflexivity.
  f_equal. apply IH.
Qed.

Ltac run_query :=
  cbv [exec eval assign_err nvs_open nvs_get_u16 nvs_get_str next_fault
       bind ret get modify is_ok
       set_temperature set_temperature_arr set_threshold
       set_threshold_overcome set_t set_time_as_string set_err set_gpio_led
       set_nvs set_faults set_overrun build_key temperature temperature_arr
       threshold threshold_overcome t time_as_string err gpio_led nvs faults
       overrun fst snd].

(** The device a request leaves: the rows, [err] and the overrun mark
    are all it changes. *)
Lemma last_10_loop_run (count : Z) :
  10 <= count < 65536 ->
  forall (n j fuel : nat) (d : device) (s : Z),
    (j + n = 10)%nat -> (n <= fuel)%nat -> faults d = [] ->
    exists e o,
      exec (last_10_loop fuel count (wrap32 (count - 10))
                         (count - Z.of_nat j) (Z.of_nat j) s) d
      = set_overrun o
          (set_err e
             (set_temperature_arr
                (fst (fold_left (read_step (nvs d) count) (seq j n)
                                (temperature_arr d, s))) d))
      /\ (overrun d = true -> o = true)
      /\ ((1 <= n)%nat -> key_overrun (count - Z.of_nat j) = true ->
          o = true).
Proof.
  intros Hcount.
  assert (wrap32 (count - 10) = count - 10) as Hbound
    by (unfold wrap32; rewrite Z.mod_small; lia).
  induction n as [|n IH]; intros j fuel d s Hj Hfuel Hf.
  - exists (err d), (overrun d). assert (j = 10%nat) as -> by lia.
    split; [|split; [tauto|lia]].
    destruct d as [tmp arr th ov t0 ts e0 led m fl orn].
    destruct fuel as [|fuel]; [reflexivity|].
    cbn [last_10_loop]. rewrite Hbound.
    replace (count - 10 <? count - Z.of_nat 10) with false
      by (symmetry; apply Z.ltb_ge; lia).
    reflexivity.
  - destruct fuel as [|fuel]; [lia|].
    cbn [last_10_loop]. rewrite Hbound.
    replace (count - 10 <? count - Z.of_nat j) with true
      by (symmetry; apply Z.ltb_lt; lia).
    rewrite to_int32_small by lia.
    replace (Z.to_nat (wrap32 (count - (count - Z.of_nat j)))) with j
      by (unfold wrap32; rewrite Z.mod_small; lia).
    replace (wrap32 (count - Z.of_nat j - 1)) with (count - Z.of_nat (S j))
      by (unfold wrap32; rewrite Z.mod_small; lia).
    replace (Z.of_nat j + 1) with (Z.of_nat (S j)) by lia.
    rewrite <- Hbound.
    destruct d as [tmp arr th ov t0 ts e0 led m fl orn]. cbn in Hf. subst fl.
    cbn [seq fold_left nvs temperature_arr overrun].
    unfold read_step at 2. cbn [fst snd].
    run_query.
    generalize (m !! temperature_key (count - Z.of_nat j)).
    intros [[v|v]|].
    + rewrite list_insert_nth_same.
      destruct (IH (S j) fuel
                   (Device tmp arr th ov t0 ts ESP_ERR_NVS_NOT_FOUND led m []
                      (orn || key_overrun (count - Z.of_nat j) || false))
                   s)
        as (e & o & He & Ho1 & _); [lia|lia|reflexivity|].
      exists e, o. split; [exact He|]. cbn [overrun] in Ho1. split.
      * intros ->. now apply Ho1.
      * intros _ Hk. apply Ho1. rewrite Hk. now rewrite orb_true_r.
    + destruct (Z.ltb_spec s (data_size v)) as [Hsmall|Hfits].
      * rewrite list_insert_nth_same.
        destruct (IH (S j) fuel
                     (Device tmp arr th ov t0 ts ESP_ERR_NVS_INVALID_LENGTH
                        led m []
                        (orn || key_overrun (count - Z.of_nat j) || false))
                     (data_size v))
          as (e & o & He & Ho1 & _); [lia|lia|reflexivity|].
        exists e, o. split; [exact He|]. cbn [overrun] in Ho1. split.
        -- intros ->. now apply Ho1.
        -- intros _ Hk. apply Ho1. rewrite Hk. now rewrite orb_true_r.
      * destruct (IH (S j) fuel
                     (Device tmp (<[j := v]> arr) th ov t0 ts ESP_OK led m []
                        (orn || key_overrun (count - Z.of_nat j)
                         || (row_size <? data_size v)))
                     (data_size v))
          as (e & o & He & Ho1 & _); [lia|lia|reflexivity|].
        exists e, o. split; [exact He|]. cbn [overrun] in Ho1. split.
        -- intros ->. now apply Ho1.
        -- intros _ Hk. apply Ho1. rewrite Hk, orb_true_r. reflexivity.
    + rewrite list_insert_nth_same.
      destruct (IH (S j) fuel
                   (Device tmp arr th ov t0 ts ESP_ERR_NVS_NOT_FOUND led m []
                      (orn || key_overrun (count - Z.of_nat j) || false))
                   s)
        as (e & o & He & Ho1 & _); [lia|lia|reflexivity|].
      exists e, o. split; [exact He|]. cbn [overrun] in Ho1. split.
      * intros ->. now apply Ho1.
      * intros _ Hk. apply Ho1. rewrite Hk. now rewrite orb_true_r.
Qed.
Lemma read_steps_length (m : gmap string nvs_value) (count : Z)
    (js : list nat) (st : list string * Z) :
  length (fst (fold_left (read_step m count) js st)) = length (fst st).
Proof.
  revert st. induction js as [|j js IH]; intros st; [reflexivity|].
  cbn [fold_left]. rewrite IH. unfold read_step.
  destruct (m !! temperature_key (count - Z.of_nat j)) as [[v|v]|];
    try reflexivity.
  destruct (snd st <? data_size v); [reflexivity|]. apply length_insert.
Qed.

(** The capacity does not depend on the rows. *)
Lemma read_steps_capacity (m : gmap string nvs_value) (count : Z)
    (js : list nat) (arr arr' : list string) (s : Z) :
  snd (fold_left (read_step m count) js (arr, s))
  = snd (fold_left (read_step m count) js (arr', s)).
Proof.
  revert arr arr' s. induction js as [|j js IH]; intros arr arr' s;
    [reflexivity|].
  cbn [fold_left]. unfold read_step at 2 4. cbn [fst snd].
  destruct (m !! temperature_key (count - Z.of_nat j)) as [[v|v]|];
    try apply IH.
  destruct (s <? data_size v); apply IH.
Qed.

Lemma nth_insert_same (arr : list string) (j : nat) (s : string) :
  (j < length arr)%nat -> nth j (<[j := s]> arr) EmptyString = s.
Proof.
  revert j. induction arr as [|x arr IH]; intros [|j] Hj; cbn in *;
    try lia; [reflexivity|].
  apply IH. lia.
Qed.

Lemma nth_insert_other (arr : list string) (j k : nat) (s : string) :
  j <> k -> nth k (<[j := s]> arr) EmptyString = nth k arr EmptyString.
Proof.
  revert j k. induction arr as [|x arr IH]; intros [|j] [|k] Hjk; cbn;
    try reflexivity; try lia.
  apply IH. lia.
Qed.

Lemma read_step_other_row (m : gmap string nvs_value) (count : Z)
    (st : list string * Z) (j k : nat) :
  j <> k ->
  nth k (fst (read_step m count st j)) EmptyString
  = nth k (fst st) EmptyString.
Proof.
  intros Hjk. unfold read_step.
  destruct (m !! temperature_key (count - Z.of_nat j)) as [[v|v]|];
    try reflexivity.
  destruct (snd st <? data_size v); [reflexivity|].
  now apply nth_insert_other.
Qed.

(** Row [k] after the lookups of the rows [j .. j+n-1]: the stored
    string when it fits the capacity the lookup of row [k] receives. *)
Lemma read_steps_nth (m : gmap string nvs_value) (count : Z) (n : nat) :
  forall (j k : nat) (arr : list string) (s : Z),
    (k < length arr)%nat ->
    nth k (fst (fold_left (read_step m count) (seq j n) (arr, s)))
        EmptyString
    = if (j <=? k)%nat && (k <? j + n)%nat then
        match m !! temperature_key (count - Z.of_nat k) with
        | Some (NvsStr v) =>
            if snd (fold_left (read_step m count) (seq j (k - j)) (arr, s))
               <? data_size v
            then nth k arr EmptyString else v
        | _ => nth k arr EmptyString
        end
      else nth k arr EmptyString.
Proof.
  induction n as [|n IH]; intros j k arr s Hk.
  - cbn [seq fold_left fst].
    replace ((j <=? k)%nat && (k <? j + 0)%nat) with false; [reflexivity|].
    symmetry. apply andb_false_iff.
    destruct (Nat.leb_spec j k); [right|left; reflexivity].
    apply Nat.ltb_ge. lia.
  - cbn [seq fold_left].
    destruct (read_step m count (arr, s) j) as [arr1 s1] eqn:Hstep.
    assert (length arr1 = length arr) as Hlen1.
    { pose proof (read_steps_length m count [j] (arr, s)) as H.
      cbn [fold_left] in H. rewrite Hstep in H. exact H. }
    rewrite IH by lia.
    destruct (Nat.eq_dec j k) as [->|Hne].
    + replace ((S k <=? k)%nat && (k <? S k + n)%nat) with false
        by (symmetry; apply andb_false_iff; left; apply Nat.leb_gt; lia).
      replace ((k <=? k)%nat && (k <? k + S n)%nat) with true.
      2:{ symmetry. apply andb_true_iff.
          split; [apply Nat.leb_le|apply Nat.ltb_lt]; lia. }
      rewrite Nat.sub_diag. cbn [seq fold_left snd].
      unfold read_step in Hstep. cbn [fst snd] in Hstep.
      destruct (m !! temperature_key (count - Z.of_nat k)) as [[v|v]|];
        try (injection Hstep as <- <-; reflexivity).
      destruct (s <? data_size v); injection Hstep as <- <-;
        [reflexivity|]. now apply nth_insert_same.
    + assert (nth k arr1 EmptyString = nth k arr EmptyString) as Hrow.
      { pose proof (read_step_other_row m count (arr, s) j k Hne) as H.
        rewrite Hstep in H. exact H. }
      rewrite Hrow.
      destruct (Nat.leb_spec j k) as [Hjk|Hjk].
      * replace ((S j <=? k)%nat) with true
          by (symmetry; apply Nat.leb_le; lia).
        replace (k <? S j + n)%nat with (k <? j + S n)%nat
          by (f_equal; lia).
        cbn [andb].
        replace (k - j)%nat with (S (k - S j)) by lia.
        cbn [seq fold_left]. rewrite Hstep. reflexivity.
      * replace ((S j <=? k)%nat) with false
          by (symmetry; apply Nat.leb_gt; lia).
        reflexivity.
Qed.

Lemma read_step_found (m : gmap string nvs_value) (count : Z)
    (st : list string * Z) (j : nat) (v : string) :
  m !! temperature_key (count - Z.of_nat j) = Some (NvsStr v) ->
  snd (read_step m count st j) = data_size v.
Proof.
  intros Hv. unfold read_step. rewrite Hv.
  now destruct (snd st <? data_size v).
Qed.

Lemma capacity_before_first (m : gmap string nvs_value) (count s : Z) :
  capacity_before m count s 0 = s.
Proof. reflexivity. Qed.

Lemma capacity_before_found (m : gmap string nvs_value) (count s : Z)
    (k : nat) (v : string) :
  m !! temperature_key (count - Z.of_nat k) = Some (NvsStr v) ->
  capacity_before m count s (S k) = data_size v.
Proof.
  intros Hv. unfold capacity_before.
  rewrite seq_S, fold_left_app. cbn [fold_left Nat.add].
  now apply read_step_found.
Qed.

Lemma rows_of_ten (arr : list string) :
  length arr = 10%nat ->
  map (fun i => nth i arr EmptyString) (seq 0 10) = arr.
Proof.
  intros Hlen.
  do 10 (destruct arr as [|? arr]; [discriminate|]).
  destruct arr; [reflexivity|discriminate].
Qed.

Lemma nvs_get_u16_found (key : string) (out c : Z) (d : device) :
  faults d = [] -> nvs d !! key = Some (NvsU16 c) ->
  nvs_get_u16 key out d = ((ESP_OK, c), d).
Proof.
  intros Hf Hc. destruct d as [tmp arr th ov t0 ts e0 led m fl orn].
  cbn in Hf, Hc. subst fl.
  unfold nvs_get_u16, next_fault, bind, get, ret. cbn. now rewrite Hc.
Qed.

Lemma get_last_10_run (s : Z) (d : device) (c : Z) :
  10 <= c < 65536 -> faults d = [] ->
  nvs d !! memory_count = Some (NvsU16 c) ->
  exists e,
    exec (get_last_10_temperatures_from_nvm s) d
    = set_overrun true
        (set_err e
           (set_temperature_arr
              (fst (fold_left (read_step (nvs d) c) (seq 0 10)
                              (temperature_arr d, s)))
              d)).
Proof.
  intros Hc Hf Hcount.
  set (d2 := set_err ESP_OK (set_err ESP_OK d)).
  destruct (last_10_loop_run c Hc 10 0 (Z.to_nat c) d2 s)
    as (e & o & He & _ & Ho); [lia|lia|exact Hf|].
  rewrite Ho in He by (try lia; apply key_overrun_from_ten; cbn; lia).
  exists e.
  unfold get_last_10_temperatures_from_nvm, exec, bind.
  change (assign_err nvs_open d) with (ESP_OK, set_err ESP_OK d).
  cbv iota beta.
  rewrite (nvs_get_u16_found memory_count 0 c (set_err ESP_OK d))
    by assumption.
  cbv iota beta.
  change (modify (set_err ESP_OK) (set_err ESP_OK d)) with (tt, d2).
  cbv iota beta.
  replace (0 <=? c - 10) with true by (symmetry; apply Z.leb_le; lia).
  change (c - Z.of_nat 0) with (c - 0) in He. rewrite Z.sub_0_r in He.
  unfold exec in He. change (Z.of_nat 0) with 0 in He. rewrite He.
  change (nvs d2) with (nvs d).
  change (temperature_arr d2) with (temperature_arr d).
  generalize (fst (fold_left (read_step (nvs d) c) (seq 0 10)
                             (temperature_arr d, s))) as rows.
  intros rows. subst d2. now destruct d.
Qed.

Lemma get_last_10_short (s : Z) (d : device) :
  faults d = [] ->
  nvs d !! memory_count = None
  \/ (exists c, nvs d !! memory_count = Some (NvsU16 c) /\ 0 <= c < 10) ->
  exists e, exec (get_last_10_temperatures_from_nvm s) d = set_err e d.
Proof.
  intros Hf Hcase.
  destruct d as [tmp arr th ov t0 ts e0 led m fl orn].
  cbn in Hf, Hcase. subst fl.
  unfold get_last_10_temperatures_from_nvm.
  destruct Hcase as [Hnone|(c & Hsome & Hc)].
  - exists ESP_ERR_NVS_NOT_FOUND. run_query. with_counter m Hnone.
    reflexivity.
  - exists ESP_OK. run_query. with_counter m Hsome.
    assert (v = c) as -> by congruence.
    replace (0 <=? c - 10) with false by (symmetry; apply Z.leb_gt; lia).
    destruct (Z.to_nat c) as [|fuel]; [reflexivity|].
    cbn [last_10_loop].
    replace (wrap32 (-1) <? c) with false; [reflexivity|].
    symmetry. apply Z.ltb_ge. change (wrap32 (-1)) with 4294967295. lia.
Qed.

Lemma last_10_rows (s : Z) (d : device) :
  last_10 s d
  = map (fun i => nth i (temperature_arr
                           (exec (get_last_10_temperatures_from_nvm s) d))
                      EmptyString) (seq 0 10).
Proof.
  unfold last_10, eval, exec, get_last_10_temperatures_from_nvm_handler, bind.
  destruct (get_last_10_temperatures_from_nvm s d) as [a d']. reflexivity.
Qed.


(** Entry [k] of the answer when the counter is [c >= 10]. *)
Lemma last_10_entry (s : Z) (d : device) (c : Z) (k : nat) :
  10 <= c < 65536 -> faults d = [] ->
  length (temperature_arr d) = 10%nat ->
  nvs d !! memory_count = Some (NvsU16 c) -> (k < 10)%nat ->
  nth k (last_10 s d) EmptyString
  = match nvs d !! temperature_key (c - Z.of_nat k) with
    | Some (NvsStr v) =>
        if capacity_before (nvs d) c s k <? data_size v
        then nth k (temperature_arr d) EmptyString else v
    | _ => nth k (temperature_arr d) EmptyString
    end.
Proof.
  intros Hc Hf Hlen Hcount Hk. rewrite last_10_rows.
  destruct (get_last_10_run s d c Hc Hf Hcount) as [e ->].
  change (temperature_arr
            (set_overrun true (set_err e (set_temperature_arr ?a d))))
    with a.
  rewrite rows_of_ten by now rewrite read_steps_length.
  rewrite read_steps_nth by lia.
  replace ((0 <=? k)%nat && (k <? 0 + 10)%nat) with true.
  2:{ symmetry. apply andb_true_iff.
      split; [apply Nat.leb_le|apply Nat.ltb_lt]; lia. }
  rewrite Nat.sub_0_r. unfold capacity_before.
  now rewrite (read_steps_capacity _ _ _ (temperature_arr d) []).
Qed.

Lemma last_10_short (s : Z) (d : device) :
  faults d = [] -> length (temperature_arr d) = 10%nat ->
  nvs d !! memory_count = None
  \/ (exists c, nvs d !! memory_count = Some (NvsU16 c) /\ 0 <= c < 10) ->
  last_10 s d = temperature_arr d.
Proof.
  intros Hf Hlen Hcase. rewrite last_10_rows.
  destruct (get_last_10_short s d Hf Hcase) as [e ->].
  change (temperature_arr (set_err e d)) with (temperature_arr d).
  now apply rows_of_ten.
Qed.
(** ** History store: results *)

Section HistoryResults.
Context {libc : Libc}.

(** C3 on the code: after [N] appends ([1 <= N <= 65536], none refused)
    to a partition without counter, the stored counter is [N - 1], the
    index of the newest record, not [N]. *)
Theorem counter_after_appends (d0 : device) (rs : list reading) :
  nvs d0 !! memory_count = None -> faults d0 = [] ->
  1 <= Z.of_nat (length rs) <= 65536 ->
  nvs (appends rs d0) !! memory_count
  = Some (NvsU16 (Z.of_nat (length rs) - 1)).
Proof.
  intros Hnone Hf Hlen.
  exact (proj1 (appends_state d0 rs (0%float, 0) Hnone Hf Hlen)).
Qed.

Lemma stored_under_index (d0 : device) (rs : list reading) (r0 : reading)
    (k : nat) :
  nvs d0 !! memory_count = None -> faults d0 = [] ->
  1 <= Z.of_nat (length rs) <= 65536 -> (k < length rs)%nat ->
  nvs (appends rs d0) !! temperature_key (Z.of_nat k)
  = Some (NvsStr (record d0 (nth k rs r0))).
Proof.
  intros Hnone Hf Hlen Hk.
  exact (proj1 (proj2 (appends_state d0 rs r0 Hnone Hf Hlen)) k Hk).
Qed.

Lemma overrun_after_appends (d0 : device) (rs : list reading) :
  nvs d0 !! memory_count = None -> faults d0 = [] ->
  11 <= Z.of_nat (length rs) <= 65536 ->
  overrun (appends rs d0) = true.
Proof.
  intros Hnone Hf Hlen.
  destruct (appends_state d0 rs (0%float, 0) Hnone Hf)
    as (_ & _ & _ & _ & _ & _ & Hover); [lia|].
  apply Hover. lia.
Qed.

Lemma last_10_after_appends (s : Z) (d0 : device) (rs : list reading)
    (r0 : reading) (size : Z) (k : nat) :
  nvs d0 !! memory_count = None -> faults d0 = [] ->
  length (temperature_arr d0) = 10%nat ->
  11 <= Z.of_nat (length rs) <= 65536 ->
  (forall i, (length rs - 10 <= i < length rs)%nat ->
     data_size (record d0 (nth i rs r0)) = size) ->
  size <= s -> (k < 10)%nat ->
  nth k (last_10 s (appends rs d0)) EmptyString
  = record d0 (nth (length rs - 1 - k) rs r0).
Proof.
  intros Hnone Hf Harr Hlen Hsize Hs Hk.
  destruct (appends_state d0 rs r0 Hnone Hf)
    as (Hc & Hkeys & Hfl & _ & Ha & _); [lia|].
  assert (forall j, (j < 10)%nat ->
            nvs (appends rs d0)
              !! temperature_key (Z.of_nat (length rs) - 1 - Z.of_nat j)
            = Some (NvsStr (record d0 (nth (length rs - 1 - j) rs r0))))
    as Hkey.
  { intros j Hj.
    replace (Z.of_nat (length rs) - 1 - Z.of_nat j)
      with (Z.of_nat (length rs - 1 - j)) by lia.
    apply Hkeys. lia. }
  rewrite (last_10_entry s _ (Z.of_nat (length rs) - 1)); try assumption;
    try lia; [|now rewrite Ha].
  rewrite (Hkey k Hk).
  destruct k as [|k].
  - rewrite capacity_before_first, Hsize by lia.
    destruct (Z.ltb_spec s size); [lia|reflexivity].
  - rewrite (capacity_before_found _ _ _ k _ (Hkey k ltac:(lia))).
    rewrite !Hsize by lia.
    destruct (Z.ltb_spec size size); [lia|reflexivity].
Qed.


Lemma append_faults_consumed (script : list esp_err_t) (r : reading)
    (d : device) (c : Z) :
  nvs d !! memory_count = Some (NvsU16 c) ->
  is_ok (outcome script 0) = true -> is_ok (outcome script 1) = false ->
  is_ok (outcome script 2) = true -> is_ok (outcome script 3) = true ->
  t (append script r d) = t d.
Proof.
  intros Hc H0 H1 H2 H3.
  destruct d as [tmp arr th ov t0 ts e0 led m fl orn], r as [x rtc].
  cbn in Hc.
  destruct script as [|a0 [|a1 [|a2 [|a3 [|a4 rest]]]]];
    cbn in H0, H1, H2, H3; try discriminate;
    try (destruct a0; try discriminate);
    try (destruct a1; try discriminate);
    try (destruct a2; try discriminate);
    try (destruct a3; try discriminate);
    run_firmware; with_counter m Hc; reflexivity.
Qed.

Lemma stored_readings_counter_only (d : device) (c : Z) :
  nvs d = {[ memory_count := NvsU16 c ]} -> stored_readings d = [].
Proof.
  intros Hn. unfold stored_readings. rewrite Hn.
  now rewrite map_to_list_singleton.
Qed.

(** C7, as the code has it: when the record write of an append is
    refused while its counter read, the erase that follows and its
    counter write are accepted, the append erases the partition and
    stores the counter 0; the reading is not written again, so no
    reading is stored after the recovery; the next append, when none of
    its calls is refused, stores its reading under the key of index 1
    with the counter 1. *)
Theorem refused_write_drops_reading (script : list esp_err_t)
    (r r' : reading) (d : device) (c : Z) :
  nvs d !! memory_count = Some (NvsU16 c) ->
  is_ok (outcome script 0) = true -> is_ok (outcome script 1) = false ->
  is_ok (outcome script 2) = true -> is_ok (outcome script 3) = true ->
  nvs (append script r d) = {[ memory_count := NvsU16 0 ]}
  /\ stored_readings (append script r d) = []
  /\ nvs (append [] r' (append script r d))
     = <[memory_count := NvsU16 1]>
         (<[temperature_key 1 := NvsStr (record d r')]>
            {[ memory_count := NvsU16 0 ]}).
Proof.
  intros Hc H0 H1 H2 H3.
  pose proof (append_record_write_refused script r d c Hc H0 H1 H2 H3) as Hn.
  pose proof (append_faults_consumed script r d c Hc H0 H1 H2 H3) as Ht.
  split; [exact Hn|]. split; [now apply (stored_readings_counter_only _ 0)|].
  rewrite (append_ok r' (append script r d) 0)
    by (rewrite Hn; apply lookup_singleton_eq).
  change (nvs (appended ?a ?b ?m ?i)) with m.
  change (wrap16 (0 + 1)) with 1. rewrite Hn.
  do 3 f_equal. now apply record_same_clock.
Qed.

End HistoryResults.

(** ** History store: concrete runs *)

Lemma three_stored_counter :
  nvs three_stored !! memory_count = Some (NvsU16 2).
Proof. vm_compute. reflexivity. Qed.

Lemma counter_after_appends_witness :
  nvs (@appends newlib_utc (map sample_reading [1; 2; 3]) (synced 1702645200))
      !! memory_count
  = Some (NvsU16 (Z.of_nat (length (map sample_reading [1; 2; 3])) - 1)).
Proof.
  apply (@counter_after_appends newlib_utc (synced 1702645200)
           (map sample_reading [1; 2; 3])).
  - reflexivity.
  - reflexivity.
  - cbn. lia.
Defined.

(** C4 on the code: for every R1 .. R15 the appends from the eleventh on
    write their key past the end of the 3-byte key array; and the
    request passes its uninitialised capacity to the lookups, each of
    which leaves the size of the record it found as the capacity of the
    next.  When R14 is longer than R15 the lookup of R14 is refused,
    whatever the capacity was at first, and the answer is not R15, R14,
    ..., R6. *)
Theorem last_10_of_15_overruns :
  (forall (L : Libc) (t0 : Z)
          (r1 r2 r3 r4 r5 r6 r7 r8 r9 r10 r11 r12 r13 r14 r15 : reading),
      overrun (@appends L [r1; r2; r3; r4; r5; r6; r7; r8; r9; r10; r11;
                           r12; r13; r14; r15] (synced t0)) = true)
  /\ (forall s : Z,
        nth 1 (last_10 s fifteen_mixed) EmptyString = EmptyString
        /\ last_10 s fifteen_mixed
           <> map (@record newlib_utc (synced 1702645200))
                  [(9.5%float, 30000000); (10.5%float, 28000000);
                   sample_reading 13; sample_reading 12; sample_reading 11;
                   sample_reading 10; sample_reading 9; sample_reading 8;
                   sample_reading 7; sample_reading 6]).
Proof.
  split.
  - intros L t0 r1 r2 r3 r4 r5 r6 r7 r8 r9 r10 r11 r12 r13 r14 r15.
    apply overrun_after_appends; try reflexivity. cbn [length]. lia.
  - intros s.
    assert (nth 1 (last_10 s fifteen_mixed) EmptyString = EmptyString)
      as Hrow.
    { rewrite (last_10_entry s fifteen_mixed 14 1);
        [|lia|vm_compute; reflexivity..|lia].
      rewrite (capacity_before_found _ _ _ 0
                 "2023-12-15 13:00:30 9.50")
        by (vm_compute; reflexivity).
      vm_compute. reflexivity. }
    split; [exact Hrow|].
    intros Heq. apply (f_equal (fun l => nth 1 l EmptyString)) in Heq.
    rewrite Hrow in Heq. vm_compute in Heq. discriminate.
Qed.

(** C5 on the code: with three readings stored since boot, the "last 10"
    request returns ten empty strings and none of the three records;
    after a refused write has erased the partition, with one reading
    stored, it returns the ten records read before the erase, none of
    which is stored any more.  The value of the uninitialised capacity
    plays no part: nothing is looked up. *)
Theorem last_10_below_ten_records :
  length (stored_readings three_stored) = 3%nat
  /\ (forall s : Z, last_10 s three_stored = replicate 10 EmptyString)
  /\ stored_readings after_recovery = ["2023-12-15 13:00:26 33.00"%string]
  /\ (forall s : Z,
        last_10 s after_recovery
        = ["2023-12-15 13:00:22 31.00"; "2023-12-15 13:00:20 30.00";
           "2023-12-15 13:00:18 29.00"; "2023-12-15 13:00:16 28.00";
           "2023-12-15 13:00:14 27.00"; "2023-12-15 13:00:12 26.00";
           "2023-12-15 13:00:10 25.00"; "2023-12-15 13:00:08 24.00";
           "2023-12-15 13:00:06 23.00"; "2023-12-15 13:00:04 22.00"]%string).
Proof.
  split; [vm_compute; reflexivity|]. split.
  - intros s. rewrite last_10_short; [vm_compute; reflexivity..|].
    right. exists 2. split; [vm_compute; reflexivity|lia].
  - split; [vm_compute; reflexivity|].
    intros s. rewrite last_10_short; [vm_compute; reflexivity..|].
    right. exists 1. split; [vm_compute; reflexivity|lia].
Qed.



Lemma refused_write_drops_reading_witness :
  nvs (@append newlib_utc [ESP_OK; ESP_ERR_NVS_NOT_ENOUGH_SPACE]
         (sample_reading 4) three_stored)
  = {[ memory_count := NvsU16 0 ]}
  /\ stored_readings
       (@append newlib_utc [ESP_OK; ESP_ERR_NVS_NOT_ENOUGH_SPACE]
          (sample_reading 4) three_stored) = []
  /\ nvs (@append newlib_utc [] (sample_reading 5)
            (@append newlib_utc [ESP_OK; ESP_ERR_NVS_NOT_ENOUGH_SPACE]
               (sample_reading 4) three_stored))
     = <[memory_count := NvsU16 1]>
         (<[temperature_key 1
            := NvsStr (@record newlib_utc three_stored (sample_reading 5))]>
            {[ memory_count := NvsU16 0 ]}).
Proof.
  apply (@refused_write_drops_reading newlib_utc
           [ESP_OK; ESP_ERR_NVS_NOT_ENOUGH_SPACE] (sample_reading 4)
           (sample_reading 5) three_stored 2).
  - vm_compute. reflexivity.
  - reflexivity.
  - reflexivity.
  - reflexivity.
  - reflexivity.
Defined.

(** C7 as stated fails: after the recovery the partition does not hold
    the reading whose write was refused. *)
Lemma refused_reading_not_stored :
  ~ (forall (L : Libc) (r : reading) (d : device) (c : Z),
        nvs d !! memory_count = Some (NvsU16 c) ->
        In (@record L d r)
           (stored_readings
              (@append L [ESP_OK; ESP_ERR_NVS_NOT_ENOUGH_SPACE] r d))).
Proof.
  intros H.
  specialize (H newlib_utc (sample_reading 4) three_stored 2
                three_stored_counter).
  rewrite (@append_record_refused newlib_utc _ _ _ 2 three_stored_counter)
    in H by reflexivity.
  unfold stored_readings in H.
  change (nvs (appended ?a ?b ?m ?i)) with m in H.
  rewrite map_to_list_singleton in H. exact H.
Qed.
(** ** Converter: further properties *)

Lemma table_in_range :
  forallb (fun x => ((-346) <=? x)%float && (x <=? 194)%float)
          (temperature_table 4096) = true.
Proof. vm_compute. reflexivity. Qed.

(** Distinct raw samples give distinct temperatures: a larger raw sample
    gives a strictly lower temperature over the 12-bit range. *)
Theorem get_temperature_strictly_decreasing (raw1 raw2 : Z) (d : device) :
  0 <= raw1 -> raw1 < raw2 -> raw2 <= 4095 ->
  (temperature (exec (get_temperature raw2) d)
   <? temperature (exec (get_temperature raw1) d))%float = true.
Proof.
  intros H0 H12 H2. rewrite !get_temperature_value.
  rewrite <- (Z2Nat.id raw1), <- (Z2Nat.id raw2) by lia.
  rewrite <- !(temperature_table_nth 4096) by lia.
  apply strictly_descending_nth; [exact table_strictly_descending | lia |].
  rewrite temperature_table_length. lia.
Qed.

Lemma get_temperature_strictly_decreasing_witness :
  (temperature (exec (get_temperature 1325) boot)
   <? temperature (exec (get_temperature 1324) boot))%float = true.
Proof.
  apply (get_temperature_strictly_decreasing 1324 1325 boot); lia.
Defined.

(** Over the 12-bit range the temperature stays between -346 and 194
    degrees. *)
Theorem get_temperature_range (raw : Z) (d : device) :
  0 <= raw <= 4095 ->
  ((-346) <=? temperature (exec (get_temperature raw) d))%float = true
  /\ (temperature (exec (get_temperature raw) d) <=? 194)%float = true.
Proof.
  intros Hraw. rewrite !get_temperature_value.
  rewrite <- (Z2Nat.id raw) by lia.
  rewrite <- !(temperature_table_nth 4096) by lia.
  apply andb_true_iff.
  apply (forallb_nth (fun x => ((-346) <=? x)%float && (x <=? 194)%float));
    [exact table_in_range|].
  rewrite temperature_table_length. lia.
Qed.

Lemma get_temperature_range_witness :
  ((-346) <=? temperature (exec (get_temperature 4095) boot))%float = true
  /\ (temperature (exec (get_temperature 4095) boot) <=? 194)%float = true.
Proof. apply (get_temperature_range 4095 boot). lia. Defined.

(** ** Threshold controller: further properties *)

(** When the threshold is enabled (different from the sentinel -50.0),
    one evaluation leaves the LED equal to the latch, whatever they were
    before, and changes nothing else. *)
Theorem handle_threshold_led_follows_latch (d : device) :
  (threshold d =? THRESHOLD_DEFAULT_VALUE)%float = false ->
  let d' := exec handle_threshold d in
  gpio_led d' = threshold_overcome d'
  /\ threshold_overcome d'
     = ((threshold d <=? temperature d)%float
        || (threshold_overcome d
            && (threshold d - 1 <=? temperature d)%float))
  /\ d' = set_gpio_led (gpio_led d')
            (set_threshold_overcome (threshold_overcome d') d).
Proof.
  intros Hen. destruct d as [tmp arr th ov t0 ts e0 led m fl orn].
  cbn in Hen. unfold handle_threshold, exec, bind, get. cbn.
  rewrite Hen. cbn.
  destruct ((th <=? tmp)%float || ov && (th - 1 <=? tmp)%float);
    repeat split.
Qed.

Lemma handle_threshold_led_follows_latch_witness :
  let d' := exec handle_threshold alarmed in
  gpio_led d' = threshold_overcome d'
  /\ threshold_overcome d'
     = ((threshold alarmed <=? temperature alarmed)%float
        || (threshold_overcome alarmed
            && (threshold alarmed - 1 <=? temperature alarmed)%float))
  /\ d' = set_gpio_led (gpio_led d')
            (set_threshold_overcome (threshold_overcome d') alarmed).
Proof. apply (handle_threshold_led_follows_latch alarmed). reflexivity. Defined.

Lemma handle_threshold_sentinel (d : device) :
  (threshold d =? THRESHOLD_DEFAULT_VALUE)%float = true ->
  exec handle_threshold d = d.
Proof.
  intros Hdis. unfold handle_threshold, exec, bind, get. cbn.
  now rewrite Hdis.
Qed.

(** While the threshold holds the sentinel -50.0 the controller does
    nothing: latch and LED keep whatever value they have. *)
Theorem handle_threshold_disabled (d : device) :
  (threshold d =? THRESHOLD_DEFAULT_VALUE)%float = true ->
  exec handle_threshold d = d.
Proof. apply handle_threshold_sentinel. Qed.

Lemma handle_threshold_disabled_witness :
  exec handle_threshold (set_threshold THRESHOLD_DEFAULT_VALUE alarmed)
  = set_threshold THRESHOLD_DEFAULT_VALUE alarmed.
Proof.
  apply (handle_threshold_disabled
           (set_threshold THRESHOLD_DEFAULT_VALUE alarmed)).
  reflexivity.
Defined.

Lemma nan_leb (x : float) : (PrimFloat.nan <=? x)%float = false.
Proof. rewrite FloatAxioms.leb_spec. reflexivity. Qed.

(** A threshold that is not a number counts as enabled and clears the
    alarm at every evaluation: latch and LED are low afterwards. *)
Theorem handle_threshold_nan (d : device) :
  threshold d = PrimFloat.nan ->
  threshold_overcome (exec handle_threshold d) = false
  /\ gpio_led (exec handle_threshold d) = false.
Proof.
  intros Hnan. destruct d as [tmp arr th ov t0 ts e0 led m fl orn].
  cbn in Hnan. subst th.
  unfold handle_threshold, exec, bind, get. cbn.
  change (PrimFloat.nan - 1)%float with PrimFloat.nan.
  rewrite !nan_leb. destruct ov; split; reflexivity.
Qed.

Lemma handle_threshold_nan_witness :
  threshold_overcome (exec handle_threshold (set_threshold PrimFloat.nan alarmed))
  = false
  /\ gpio_led (exec handle_threshold (set_threshold PrimFloat.nan alarmed))
     = false.
Proof.
  apply (handle_threshold_nan (set_threshold PrimFloat.nan alarmed)).
  reflexivity.
Defined.

(** ** The set-threshold request: what is extracted *)

Lemma list_ascii_of_string_app (a b : string) :
  list_ascii_of_string (a +:+ b)
  = list_ascii_of_string a ++ list_ascii_of_string b.
Proof. induction a as [|c a IH]; simpl; [reflexivity|]. f_equal. exact IH. Qed.

Lemma list_ascii_of_string_length (a : string) :
  length (list_ascii_of_string a) = String.length a.
Proof. induction a as [|c a IH]; simpl; [reflexivity|]. f_equal. exact IH. Qed.

Lemma scan_body_skips_name (name rest thresh : list ascii) :
  ~ In "="%char name ->
  scan_body (name ++ rest) 0 thresh = scan_body rest 0 thresh.
Proof.
  induction name as [|c name IH]; intros Hno; [reflexivity|].
  cbn [app scan_body]. destruct (Ascii.eqb_spec c "="%char) as [->|_].
  - exfalso. apply Hno. now left.
  - cbn. apply IH. intros Hin. apply Hno. now right.
Qed.

Lemma scan_body_copies_value (value rest : list ascii) :
  ~ In "="%char value ->
  forall written : list ascii,
    (length written + length value <= 10)%nat ->
    scan_body (value ++ rest) (Z.of_nat (length written) + 1)
              (written ++ replicate (10 - length written) NUL)
    = scan_body rest (Z.of_nat (length written + length value) + 1)
                ((written ++ value)
                 ++ replicate (10 - length written - length value) NUL).
Proof.
  induction value as [|c value IH]; intros Hno written Hlen.
  - cbn [app length]. rewrite Nat.add_0_r, Nat.sub_0_r, app_nil_r.
    reflexivity.
  - cbn [app scan_body length] in *.
    destruct (Ascii.eqb_spec c "="%char) as [->|_];
      [exfalso; apply Hno; now left|].
    replace (Z.of_nat (length written) + 1 =? 0) with false
      by (symmetry; apply Z.eqb_neq; lia).
    cbn [negb].
    replace (Z.of_nat (length written) + 1 - 1 <? 10) with true
      by (symmetry; apply Z.ltb_lt; lia).
    replace (Z.to_nat (Z.of_nat (length written) + 1 - 1))
      with (length written + 0)%nat by lia.
    rewrite insert_app_r.
    destruct (10 - length written)%nat as [|k] eqn:Hk; [lia|].
    cbn [replicate]. change (<[0%nat := c]> (NUL :: replicate k NUL))
      with (c :: replicate k NUL).
    specialize (IH (fun Hin => Hno (or_intror Hin)) (written ++ [c])).
    rewrite length_app in IH. cbn [length] in IH.
    replace (10 - (length written + 1))%nat with k in IH by lia.
    replace (Z.of_nat (length written) + 1 + 1)
      with (Z.of_nat (length written + 1) + 1) by lia.
    rewrite <- (app_assoc written [c]) in IH. cbn [app] in IH.
    rewrite IH by lia.
    rewrite <- (app_assoc written [c]). cbn [app].
    replace (length written + 1 + length value)%nat
      with (length written + S (length value))%nat by lia.
    reflexivity.
Qed.

Lemma take_shorter {A} (l1 l2 : list A) (n m : nat) :
  (n <= m)%nat -> take m l1 = take m l2 -> take n l1 = take n l2.
Proof.
  intros Hnm Heq. rewrite <- (Nat.min_l n m) by exact Hnm.
  rewrite <- !take_take. now rewrite Heq.
Qed.

(** Characters after the value never reach the cells before the write
    index, and stay inside [thresh] while the body is short enough. *)
Lemma scan_body_keeps_prefix (rest : list ascii) :
  forall (count : Z) (thresh : list ascii),
    1 <= count -> count - 1 + Z.of_nat (length rest) <= 10 ->
    exists thresh',
      scan_body rest count thresh = Some thresh'
      /\ take (Z.to_nat (count - 1)) thresh'
         = take (Z.to_nat (count - 1)) thresh.
Proof.
  induction rest as [|c rest IH]; intros count thresh Hc Hlen.
  - exists thresh. split; reflexivity.
  - cbn [scan_body length] in *. destruct (Ascii.eqb c "="%char).
    + destruct (IH (count + 1) thresh) as (th' & Hrun & Htake); [lia|lia|].
      exists th'. split; [exact Hrun|].
      apply (take_shorter _ _ _ (Z.to_nat (count + 1 - 1))); [lia|].
      exact Htake.
    + replace (count =? 0) with false by (symmetry; apply Z.eqb_neq; lia).
      cbn [negb].
      replace (count - 1 <? 10) with true by (symmetry; apply Z.ltb_lt; lia).
      destruct (IH (count + 1) (<[Z.to_nat (count - 1) := c]> thresh))
        as (th' & Hrun & Htake); [lia|lia|].
      exists th'. split; [exact Hrun|].
      rewrite <- (take_insert_ge thresh _ (Z.to_nat (count - 1)) c)
        by reflexivity.
      apply (take_shorter _ _ _ (Z.to_nat (count + 1 - 1))); [lia|].
      exact Htake.
Qed.


Lemma c_string_value (value rest : list ascii) :
  ~ In NUL value ->
  c_string (value ++ NUL :: rest) = Some (string_of_list_ascii value).
Proof.
  induction value as [|c value IH]; intros Hno; [reflexivity|].
  cbn [app c_string string_of_list_ascii].
  destruct (Ascii.eqb_spec c NUL) as [->|_];
    [exfalso; apply Hno; now left|].
  rewrite IH; [reflexivity|]. intros Hin. apply Hno. now right.
Qed.

Lemma scan_body_equals (rest thresh : list ascii) (count : Z) :
  scan_body ("="%char :: rest) count thresh
  = scan_body rest (count + 1) thresh.
Proof. reflexivity. Qed.

Lemma scan_body_copies_first_value (value rest : list ascii) :
  ~ In "="%char value -> (length value <= 10)%nat ->
  scan_body (value ++ rest) 1 (replicate 10 NUL)
  = scan_body rest (Z.of_nat (length value) + 1)
              (value ++ replicate (10 - length value) NUL).
Proof.
  intros Hno Hlen.
  exact (scan_body_copies_value value rest Hno [] Hlen).
Qed.

(** The value the handler extracts from [name=value] and from
    [name=value=more]: the characters between the first '=' and the
    second one or the end of the body. *)
Lemma extracted_value_of_pair (name value more : string) :
  ~ In "="%char (list_ascii_of_string name) ->
  ~ In "="%char (list_ascii_of_string value) ->
  ~ In NUL (list_ascii_of_string value) ->
  (String.length value + String.length more <= 9)%nat ->
  extracted_value (name +:+ "=" +:+ value) = Some value
  /\ extracted_value (name +:+ "=" +:+ value +:+ "=" +:+ more) = Some value.
Proof.
  intros Hname Hvalue Hnul Hlen.
  pose proof (list_ascii_of_string_length value) as Hlv.
  pose proof (list_ascii_of_string_length more) as Hlm.
  unfold extracted_value.
  rewrite !list_ascii_of_string_app.
  rewrite !scan_body_skips_name by exact Hname.
  change (list_ascii_of_string "=") with ["="%char].
  cbn [app]. rewrite !scan_body_equals. change (0 + 1) with 1.
  set (v := list_ascii_of_string value) in *.
  destruct (10 - length v)%nat as [|k] eqn:Hk; [lia|].
  split.
  - rewrite <- (app_nil_r v) at 1.
    rewrite scan_body_copies_first_value by (try exact Hvalue; lia).
    cbn [scan_body]. rewrite Hk. cbn [replicate].
    rewrite c_string_value by exact Hnul.
    subst v. now rewrite string_of_list_ascii_of_string.
  - rewrite scan_body_skips_name by exact Hname.
    rewrite scan_body_equals. change (0 + 1) with 1.
    rewrite scan_body_copies_first_value by (try exact Hvalue; lia).
    rewrite scan_body_equals, Hk. cbn [replicate].
    destruct (scan_body_keeps_prefix (list_ascii_of_string more)
                (Z.of_nat (length v) + 1 + 1) (v ++ NUL :: replicate k NUL))
      as (th' & -> & Htake); [lia|lia|].
    replace (Z.to_nat (Z.of_nat (length v) + 1 + 1 - 1))
      with (length v + 1)%nat in Htake by lia.
    rewrite <- (take_drop (length v + 1) th'), Htake.
    rewrite take_app_add'. 2: reflexivity.
    cbn [take]. rewrite <- app_assoc. cbn [app].
    rewrite c_string_value by exact Hnul.
    subst v. now rewrite string_of_list_ascii_of_string.
Qed.

Section SetThresholdRequests.
Context {libc : Libc}.

(** A request [name=value] (value of at most 9 characters, body of at
    most 20) is accepted: the LED goes low, the threshold becomes
    [atof value], nothing else changes. *)
Theorem set_threshold_request (name value : string) (d : device) :
  ~ In "="%char (list_ascii_of_string name) ->
  ~ In "="%char (list_ascii_of_string value) ->
  ~ In NUL (list_ascii_of_string value) ->
  (String.length value <= 9)%nat ->
  (String.length (name +:+ "=" +:+ value) <= 20)%nat ->
  post_set_threshold_handler (name +:+ "=" +:+ value) d
  = Some (set_threshold (atof value) (set_gpio_led false d)).
Proof.
  intros Hname Hvalue Hnul Hlen Hbody.
  unfold post_set_threshold_handler.
  destruct (Nat.ltb_spec 20 (String.length (name +:+ "=" +:+ value)));
    [lia|].
  destruct (extracted_value_of_pair name value EmptyString) as [-> _];
    try assumption; [cbn; lia|reflexivity].
Qed.

(** What follows a second '=' in the body is ignored: [name=value=more]
    sets the threshold to [atof value]. *)
Theorem set_threshold_request_second_equals (name value more : string)
    (d : device) :
  ~ In "="%char (list_ascii_of_string name) ->
  ~ In "="%char (list_ascii_of_string value) ->
  ~ In NUL (list_ascii_of_string value) ->
  (String.length value + String.length more <= 9)%nat ->
  (String.length (name +:+ "=" +:+ value +:+ "=" +:+ more) <= 20)%nat ->
  post_set_threshold_handler (name +:+ "=" +:+ value +:+ "=" +:+ more) d
  = Some (set_threshold (atof value) (set_gpio_led false d)).
Proof.
  intros Hname Hvalue Hnul Hlen Hbody.
  unfold post_set_threshold_handler.
  destruct (Nat.ltb_spec 20
              (String.length (name +:+ "=" +:+ value +:+ "=" +:+ more)));
    [lia|].
  destruct (extracted_value_of_pair name value more) as [_ ->];
    try assumption; reflexivity.
Qed.

End SetThresholdRequests.

Ltac no_such_char :=
  cbn; intros Hin;
  repeat (destruct Hin as [Hin|Hin]; [discriminate Hin|]); exact Hin.

Lemma set_threshold_request_witness :
  @post_set_threshold_handler newlib_utc ("threshold" +:+ "=" +:+ "25.5")
                              alarmed
  = Some (set_threshold (@atof newlib_utc "25.5") (set_gpio_led false alarmed)).
Proof.
  apply (@set_threshold_request newlib_utc "threshold" "25.5" alarmed).
  - no_such_char.
  - no_such_char.
  - no_such_char.
  - vm_compute. lia.
  - vm_compute. lia.
Defined.

Lemma set_threshold_request_second_equals_witness :
  @post_set_threshold_handler newlib_utc
    ("threshold" +:+ "=" +:+ "25" +:+ "=" +:+ "31") alarmed
  = Some (set_threshold (@atof newlib_utc "25") (set_gpio_led false alarmed)).
Proof.
  apply (@set_threshold_request_second_equals newlib_utc "threshold" "25" "31"
           alarmed).
  - no_such_char.
  - no_such_char.
  - no_such_char.
  - vm_compute. lia.
  - vm_compute. lia.
Defined.

(** ** Clock: further properties *)

Section ClockMore.
Context {libc : Libc}.

Lemma init_time_loop_stops (time_at : Z -> Z) (k : Z) :
  116 <= tm_year (localtime (time_at k)) ->
  (forall j, 1 <= j < k -> tm_year (localtime (time_at j)) < 116) ->
  k <= 9 ->
  forall (fuel : nat) (timeinfo : tm) (retry : Z),
    tm_year timeinfo < 116 -> 0 <= retry < k ->
    k - retry <= Z.of_nat fuel ->
    init_time_loop fuel time_at timeinfo retry = (localtime (time_at k), k).
Proof.
  intros Hvalid Hbefore Hk9.
  induction fuel as [|fuel IH]; intros timeinfo retry Hyear Hretry Hfuel;
    [lia|].
  cbn [init_time_loop].
  replace (tm_year timeinfo <? 2016 - 1900) with true
    by (symmetry; apply Z.ltb_lt; lia).
  replace (retry + 1 <? 10) with true by (symmetry; apply Z.ltb_lt; lia).
  cbn [andb].
  destruct (Z.eq_dec (retry + 1) k) as [Heq|Hne].
  - rewrite Heq. destruct fuel as [|fuel]; [reflexivity|].
    cbn [init_time_loop].
    replace (tm_year (localtime (time_at k)) <? 2016 - 1900) with false
      by (symmetry; apply Z.ltb_ge; lia).
    reflexivity.
  - apply IH; [apply Hbefore|..]; lia.
Qed.

Lemma init_time_loop_gives_up (time_at : Z -> Z) :
  (forall j, 1 <= j <= 9 -> tm_year (localtime (time_at j)) < 116) ->
  forall (fuel : nat) (timeinfo : tm) (retry : Z),
    tm_year timeinfo < 116 -> 0 <= retry < 9 ->
    9 - retry <= Z.of_nat fuel ->
    init_time_loop fuel time_at timeinfo retry = (localtime (time_at 9), 9).
Proof.
  intros Hnever.
  induction fuel as [|fuel IH]; intros timeinfo retry Hyear Hretry Hfuel;
    [lia|].
  cbn [init_time_loop].
  replace (tm_year timeinfo <? 2016 - 1900) with true
    by (symmetry; apply Z.ltb_lt; lia).
  replace (retry + 1 <? 10) with true by (symmetry; apply Z.ltb_lt; lia).
  cbn [andb].
  destruct (Z.eq_dec (retry + 1) 9) as [Heq|Hne].
  - rewrite Heq. destruct fuel as [|fuel]; [reflexivity|].
    cbn [init_time_loop].
    replace (9 + 1 <? 10) with false by reflexivity.
    now rewrite andb_false_r.
  - apply IH; [apply Hnever|..]; lia.
Qed.

(** [init_time] stops at the first poll, among at most nine, whose year
    is 2016 or later: the clock base is that wall time with one hour
    added ([mktime] of the broken-down time), whatever [t] held before,
    and nothing else changes. *)
Theorem init_time_first_valid_poll (time_at : Z -> Z) (k : Z) (d : device) :
  1 <= k <= 9 ->
  (forall j, 1 <= j < k -> tm_year (localtime (time_at j)) < 116) ->
  116 <= tm_year (localtime (time_at k)) ->
  init_time_loop 10 time_at tm_zero 0 = (localtime (time_at k), k)
  /\ exec (init_time time_at) d
     = set_t (mktime (add_hour (localtime (time_at k)) 1)) d.
Proof.
  intros Hk Hbefore Hvalid.
  assert (init_time_loop 10 time_at tm_zero 0 = (localtime (time_at k), k))
    as Hloop.
  { apply init_time_loop_stops; try assumption; cbn; lia. }
  split; [exact Hloop|].
  unfold init_time, exec, modify. cbn [snd]. now rewrite Hloop.
Qed.

(** When none of the nine polls returns a year from 2016 on,
    [init_time] gives up after the ninth and still sets the clock base,
    from that ninth reading. *)
Theorem init_time_gives_up (time_at : Z -> Z) (d : device) :
  (forall j, 1 <= j <= 9 -> tm_year (localtime (time_at j)) < 116) ->
  init_time_loop 10 time_at tm_zero 0 = (localtime (time_at 9), 9)
  /\ exec (init_time time_at) d
     = set_t (mktime (add_hour (localtime (time_at 9)) 1)) d.
Proof.
  intros Hnever.
  assert (init_time_loop 10 time_at tm_zero 0 = (localtime (time_at 9), 9))
    as Hloop.
  { apply init_time_loop_gives_up; try assumption; cbn; lia. }
  split; [exact Hloop|].
  unfold init_time, exec, modify. cbn [snd]. now rewrite Hloop.
Qed.

End ClockMore.

(** The formatted instant never goes back while the RTC counter grows. *)
Theorem actual_time_monotone (d : device) (rtc1 rtc2 : Z) :
  0 <= rtc1 -> rtc1 <= rtc2 -> rtc2 < 18446744073709551616 ->
  - 4611686018427387904 <= t d < 4611686018427387904 ->
  actual_time d rtc1 <= actual_time d rtc2.
Proof.
  intros H0 H12 H2 Ht. unfold actual_time.
  pose proof (rtc_sec_range rtc1). pose proof (rtc_sec_range rtc2).
  rewrite !to_int64_small by lia.
  unfold rtc_sec, wrap64. rewrite !Z.mod_small by lia.
  apply Z.add_le_mono_l, Z.div_le_mono; lia.
Qed.

Lemma actual_time_monotone_witness :
  actual_time (synced 1702645200) 1999999
  <= actual_time (synced 1702645200) 2000000.
Proof.
  apply (actual_time_monotone (synced 1702645200) 1999999 2000000).
  - lia.
  - lia.
  - lia.
  - cbn. lia.
Defined.

Lemma init_time_first_valid_poll_witness :
  @init_time_loop newlib_utc 10 (fun k => if k <? 3 then 5 else 1702641600)
                  tm_zero 0
  = (@localtime newlib_utc ((fun k => if k <? 3 then 5 else 1702641600) 3), 3)
  /\ exec (@init_time newlib_utc (fun k => if k <? 3 then 5 else 1702641600))
          boot
     = set_t (@mktime newlib_utc
                (add_hour
                   (@localtime newlib_utc
                      ((fun k => if k <? 3 then 5 else 1702641600) 3)) 1))
             boot.
Proof.
  apply (@init_time_first_valid_poll newlib_utc
           (fun k => if k <? 3 then 5 else 1702641600) 3 boot).
  - lia.
  - intros j Hj.
    assert (j = 1 \/ j = 2) as [-> | ->] by lia; vm_compute; reflexivity.
  - vm_compute. discriminate.
Defined.

Lemma init_time_gives_up_witness :
  @init_time_loop newlib_utc 10 (fun k => k) tm_zero 0
  = (@localtime newlib_utc ((fun k => k) 9), 9)
  /\ exec (@init_time newlib_utc (fun k => k)) boot
     = set_t (@mktime newlib_utc
                (add_hour (@localtime newlib_utc ((fun k => k) 9)) 1)) boot.
Proof.
  apply (@init_time_gives_up newlib_utc (fun k => k) boot).
  intros j Hj.
  assert (j = 1 \/ j = 2 \/ j = 3 \/ j = 4 \/ j = 5 \/ j = 6 \/ j = 7
          \/ j = 8 \/ j = 9) as Hcases by lia.
  repeat (destruct Hcases as [-> | Hcases]; [vm_compute; reflexivity|]).
  subst j. vm_compute. reflexivity.
Defined.

(** ** Records: sizes *)

Lemma string_length_app (a b : string) :
  String.length (a +:+ b) = (String.length a + String.length b)%nat.
Proof. induction a as [|c a IH]; simpl; [reflexivity|]. now rewrite IH. Qed.

Lemma string_of_list_ascii_length (l : list ascii) :
  String.length (string_of_list_ascii l) = length l.
Proof. induction l as [|c l IH]; simpl; [reflexivity|]. now rewrite IH. Qed.

Lemma snprintf_length (size : nat) (s : string) :
  (String.length (snprintf size s) <= size - 1)%nat.
Proof.
  unfold snprintf. generalize (size - 1)%nat as n. clear size.
  induction s as [|c s IH]; intros [|n]; cbn; try lia.
  specialize (IH n). cbn in IH. lia.
Qed.

Lemma pretty_N_go_grows (n : nat) (x : N) (s : string) :
  (x < 10 ^ N.of_nat n)%N ->
  (String.length s <= String.length (pretty_N_go x s))%nat.
Proof.
  revert x s. induction n as [|n IH]; intros x s Hx.
  - assert (x = 0%N) as -> by (cbn in Hx; lia).
    rewrite pretty_N_go_0. lia.
  - destruct (N.eq_dec x 0%N) as [->|Hpos].
    + rewrite pretty_N_go_0. lia.
    + rewrite pretty_N_go_step by lia.
      etransitivity; [|apply IH].
      * cbn. lia.
      * apply N.Div0.div_lt_upper_bound.
        replace (N.of_nat (S n)) with (N.succ (N.of_nat n)) in Hx by lia.
        now rewrite N.pow_succ_r' in Hx.
Qed.

Lemma pretty_Z_nonempty (n : nat) (z : Z) :
  0 <= z < 10 ^ Z.of_nat n -> (1 <= String.length (pretty z))%nat.
Proof.
  intros Hz. destruct z as [|p|p]; [cbn; lia| |lia].
  change (pretty (Z.pos p)) with (pretty (N.pos p)).
  unfold pretty, pretty_N. destruct (decide (N.pos p = 0%N)); [lia|].
  rewrite pretty_N_go_step by lia.
  etransitivity; [|apply (pretty_N_go_grows n)].
  - cbn. lia.
  - apply N.Div0.div_lt_upper_bound.
    apply N.lt_le_trans with (10 ^ N.of_nat n)%N.
    + apply N2Z.inj_lt. rewrite N2Z.inj_pow, nat_N_Z. cbn. lia.
    + assert (0 < 10 ^ N.of_nat n)%N by (apply N.neq_0_lt_0, N.pow_nonzero; lia).
      lia.
Qed.

Lemma pad0_length (width : nat) (z : Z) :
  (1 <= width)%nat -> 0 <= z < 10 ^ Z.of_nat width ->
  String.length (pad0 width z) = width.
Proof.
  intros Hw Hz. unfold pad0.
  destruct (Z.ltb_spec z 0) as [Hneg|_]; [lia|].
  rewrite Z.abs_eq by lia.
  pose proof (pretty_Z_length width z Hw Hz).
  rewrite string_length_app, string_of_list_ascii_length, length_replicate.
  lia.
Qed.

Section Records.
Context {libc : Libc}.

Lemma format_time_in_range (time : tm) :
  tm_in_range time = true -> String.length (format_time time) = 20%nat.
Proof.
  unfold tm_in_range. rewrite !andb_true_iff, !Z.leb_le.
  intros Hr. unfold format_time.
  rewrite !to_int32_small by lia.
  assert (String.length
            (pad0 4 (tm_year time + 1900) +:+ "-"
             +:+ pad0 2 (tm_mon time + 1) +:+ "-"
             +:+ pad0 2 (tm_mday time) +:+ " "
             +:+ pad0 2 (tm_hour time) +:+ ":"
             +:+ pad0 2 (tm_min time) +:+ ":"
             +:+ pad0 2 (tm_sec time) +:+ " ") = 20%nat) as Hlen.
  { rewrite !string_length_app.
    rewrite (pad0_length 4) by (cbn; lia).
    rewrite !(pad0_length 2) by (cbn; lia).
    reflexivity. }
  rewrite snprintf_short; [exact Hlen|]. rewrite Hlen. lia.
Qed.

(** When [localtime] returns fields in their calendar ranges, the time
    stamp has exactly 20 characters and the record appended for the
    reading has at most 27, so it fits a 48-byte row of
    [temperature_arr] with its terminator. *)
Theorem record_fits_row (d : device) (r : reading) :
  tm_in_range (localtime (actual_time d (snd r))) = true ->
  String.length (time_as_string (exec (get_time (snd r)) d)) = 20%nat
  /\ (String.length (record d r) <= 27)%nat.
Proof.
  intros Hr. pose proof (format_time_in_range _ Hr) as Hlen.
  split; [exact Hlen|].
  unfold record, record_of.
  pose proof (snprintf_length 8
                (printf_2f (temperature
                   (exec (get_time (snd r)) (set_temperature (fst r) d))))).
  rewrite string_length_app.
  change (time_as_string
            (exec (get_time (snd r)) (set_temperature (fst r) d)))
    with (format_time (localtime (actual_time d (snd r)))).
  lia.
Qed.

End Records.

Lemma record_fits_row_witness :
  String.length
    (time_as_string
       (exec (@get_time newlib_utc (snd (sample_reading 4)))
             (synced 1702645200))) = 20%nat
  /\ (String.length (@record newlib_utc (synced 1702645200) (sample_reading 4))
      <= 27)%nat.
Proof.
  apply (@record_fits_row newlib_utc (synced 1702645200) (sample_reading 4)).
  vm_compute. reflexivity.
Defined.

(** ** Frames *)
Lemma keeps_ret (R : device -> device -> Prop) {A} (a : A) :
  (forall d, R d d) -> keeps R (ret a).
Proof. intros Hrefl d. apply Hrefl. Qed.

Lemma keeps_get (R : device -> device -> Prop) :
  (forall d, R d d) -> keeps R get.
Proof. intros Hrefl d. apply Hrefl. Qed.

Lemma keeps_modify (R : device -> device -> Prop) (f : device -> device) :
  (forall d, R d (f d)) -> keeps R (modify f).
Proof. intros Hf d. apply Hf. Qed.

Lemma keeps_bind (R : device -> device -> Prop) {A B} (m : M A)
    (k : A -> M B) :
  (forall d1 d2 d3, R d1 d2 -> R d2 d3 -> R d1 d3) ->
  keeps R m -> (forall a, keeps R (k a)) -> keeps R (bind m k).
Proof.
  intros Htrans Hm Hk d. unfold bind.
  specialize (Hm d). destruct (m d) as [a d1]. cbn in Hm.
  exact (Htrans _ _ _ Hm (Hk a d1)).
Qed.

Lemma same_controller_refl (d : device) : same_controller d d.
Proof. repeat split. Qed.

Lemma same_controller_trans (d1 d2 d3 : device) :
  same_controller d1 d2 -> same_controller d2 d3 -> same_controller d1 d3.
Proof.
  unfold same_controller. intros H12 H23.
  destruct H12 as (?&?&?&?&?&?), H23 as (?&?&?&?&?&?).
  repeat split; congruence.
Qed.

Lemma same_storage_refl (d : device) : same_storage d d.
Proof. repeat split. Qed.

Lemma same_storage_trans (d1 d2 d3 : device) :
  same_storage d1 d2 -> same_storage d2 d3 -> same_storage d1 d3.
Proof.
  unfold same_storage. intros H12 H23.
  destruct H12 as (?&?&?&?&?&?&?), H23 as (?&?&?&?&?&?&?).
  repeat split; congruence.
Qed.

Lemma keeps_next_fault (R : device -> device -> Prop) :
  (forall d, R d d) -> (forall f d, R d (set_faults f d)) ->
  keeps R next_fault.
Proof.
  intros Hrefl Hf d. unfold next_fault.
  destruct (faults d) as [|e rest]; [apply Hrefl|apply Hf].
Qed.

(** Decomposes a computation built from the monad operations and the
    NVS calls; the relation [R] has to be reflexive and transitive
    ([Hrefl], [Htrans]). *)
Ltac keeps_steps Hrefl Htrans :=
  repeat
    lazymatch goal with
    | |- keeps _ (ret _) => apply keeps_ret; exact Hrefl
    | |- keeps _ get => apply keeps_get; exact Hrefl
    | |- keeps _ next_fault =>
        apply keeps_next_fault; [exact Hrefl | intros; repeat split]
    | |- keeps _ (modify _) => apply keeps_modify; intros; repeat split
    | |- keeps _ (bind _ _) => apply keeps_bind; [exact Htrans | | intros ?]
    | |- keeps _ (if ?b then _ else _) => destruct b
    | |- keeps _ (match ?x with _ => _ end) => destruct x
    end.

Section Frames.
Context {libc : Libc}.

Lemma store_temperature_keeps (rtc_us : Z) :
  keeps same_controller (store_temperature rtc_us).
Proof.
  unfold store_temperature, clear_memory, assign_err, nvs_open, nvs_get_u16,
    nvs_set_str, nvs_set_u16, nvs_erase_all, nvs_commit, get_time, build_key.
  keeps_steps same_controller_refl same_controller_trans.
Qed.

Lemma last_10_loop_keeps (fuel : nat) :
  forall count bound i index s,
    keeps same_storage (last_10_loop fuel count bound i index s).
Proof.
  induction fuel as [|fuel IH]; intros count bound i index s;
    cbn [last_10_loop].
  - apply keeps_ret, same_storage_refl.
  - unfold nvs_get_str, build_key.
    keeps_steps same_storage_refl same_storage_trans.
    apply IH.
Qed.

Lemma get_last_10_keeps (s : Z) :
  keeps same_storage (get_last_10_temperatures_from_nvm s).
Proof.
  unfold get_last_10_temperatures_from_nvm, assign_err, nvs_open,
    nvs_get_u16.
  keeps_steps same_storage_refl same_storage_trans.
  all: apply last_10_loop_keeps.
Qed.

End Frames.

(** ** History store: further properties *)

(** The storage keys: for counters below 65536 the text [snprintf]
    writes is "t" followed by the decimal counter, at most six
    characters long; distinct counters give distinct texts, and no text
    is the counter's own key.  The text and its terminator fit the
    3-byte array [temperature_key] exactly for the counters 0 .. 9:
    from 10 on the write runs past the end of the array. *)
Theorem temperature_key_scheme (j k : Z) :
  0 <= j < 65536 -> 0 <= k < 65536 ->
  temperature_key k = "t" +:+ pretty k
  /\ (String.length (temperature_key k) <= 6)%nat
  /\ (temperature_key j = temperature_key k <-> j = k)
  /\ temperature_key k <> memory_count
  /\ temperature_key_size = 3%nat
  /\ (k <= 9 -> key_overrun k = false)
  /\ (10 <= k -> key_overrun k = true).
Proof.
  intros Hj Hk. split; [now apply temperature_key_counter|].
  split.
  { rewrite temperature_key_counter by exact Hk.
    pose proof (pretty_counter_length k Hk).
    rewrite string_length_app. cbn [String.length]. lia. }
  split; [split; [now apply temperature_key_inj|now intros ->]|].
  split; [apply temperature_key_not_count|].
  split; [reflexivity|].
  split; intros Hten.
  - apply key_fits_below_ten. lia.
  - apply key_overrun_from_ten. lia.
Qed.

Lemma temperature_key_scheme_witness :
  temperature_key 65535 = "t" +:+ pretty 65535
  /\ (String.length (temperature_key 65535) <= 6)%nat
  /\ (temperature_key 9 = temperature_key 65535 <-> 9 = 65535)
  /\ temperature_key 65535 <> memory_count
  /\ temperature_key_size = 3%nat
  /\ (65535 <= 9 -> key_overrun 65535 = false)
  /\ (10 <= 65535 -> key_overrun 65535 = true).
Proof. apply (temperature_key_scheme 9 65535); lia. Defined.

Section HistoryMore.
Context {libc : Libc}.

(** Write then look up: after [N] appends to a partition without
    counter, the [k]-th reading appended (counting from 0) is stored
    under the key of index [k], for every [k < N <= 65536], the key
    being the text [snprintf] wrote.  Up to ten appends keep every key
    inside the 3-byte key array; from the eleventh append on a key has
    been written past its end. *)
Theorem reading_stored_under_index (d0 : device) (rs : list reading)
    (r0 : reading) (k : nat) :
  nvs d0 !! memory_count = None -> faults d0 = [] ->
  1 <= Z.of_nat (length rs) <= 65536 -> (k < length rs)%nat ->
  nvs (appends rs d0) !! temperature_key (Z.of_nat k)
  = Some (NvsStr (record d0 (nth k rs r0)))
  /\ (Z.of_nat (length rs) <= 10 -> overrun (appends rs d0) = overrun d0)
  /\ (11 <= Z.of_nat (length rs) -> overrun (appends rs d0) = true).
Proof.
  intros Hnone Hf Hlen Hk.
  destruct (appends_state d0 rs r0 Hnone Hf Hlen)
    as (_ & Hkeys & _ & _ & _ & Hfits & Hover).
  split; [now apply Hkeys|]. split; assumption.
Qed.

(** With between 11 and 65536 readings appended since the partition was
    empty, entry [k] of the "last 10" answer is the [(k+1)]-th newest
    reading, for [k = 0 .. 9], provided the ten newest records all have
    the same size (text and terminator), the uninitialised capacity [s]
    the request starts from is at least that size, and that size fits a
    row.  The keys of these records were written past the end of the
    3-byte key array. *)
Theorem last_10_newest_first (s : Z) (d0 : device) (rs : list reading)
    (r0 : reading) (size : Z) (k : nat) :
  nvs d0 !! memory_count = None -> faults d0 = [] ->
  length (temperature_arr d0) = 10%nat ->
  11 <= Z.of_nat (length rs) <= 65536 ->
  (forall i, (length rs - 10 <= i < length rs)%nat ->
     data_size (record d0 (nth i rs r0)) = size) ->
  size <= s -> size <= row_size -> (k < 10)%nat ->
  nth k (last_10 s (appends rs d0)) EmptyString
  = record d0 (nth (length rs - 1 - k) rs r0)
  /\ overrun (appends rs d0) = true.
Proof.
  intros Hnone Hf Harr Hlen Hsize Hs _ Hk.
  split; [now apply (last_10_after_appends s d0 rs r0 size k)|].
  now apply overrun_after_appends.
Qed.

(** When the stored counter is below 10 or missing, the query looks
    nothing up: the answer is the ten rows as the previous answer left
    them. *)
Theorem last_10_without_lookup (s : Z) (d : device) :
  faults d = [] -> length (temperature_arr d) = 10%nat ->
  nvs d !! memory_count = None
  \/ (exists c, nvs d !! memory_count = Some (NvsU16 c) /\ 0 <= c < 10) ->
  last_10 s d = temperature_arr d
  /\ temperature_arr (exec (get_last_10_temperatures_from_nvm_handler s) d)
     = temperature_arr d.
Proof.
  intros Hf Hlen Hcase. split; [now apply last_10_short|].
  unfold exec, get_last_10_temperatures_from_nvm_handler, bind, get, ret.
  destruct (get_last_10_short s d Hf Hcase) as [e He].
  unfold exec in He.
  destruct (get_last_10_temperatures_from_nvm s d) as [a d']. cbn in *.
  now subst d'.
Qed.


(** The "last 10" request never writes the partition, whatever calls
    are refused: partition, temperature, threshold state, LED and clock
    base are as before, and the answer has ten entries. *)
Theorem last_10_keeps_storage (s : Z) (d : device) :
  same_storage d (exec (get_last_10_temperatures_from_nvm_handler s) d)
  /\ length (last_10 s d) = 10%nat.
Proof.
  split; [|rewrite last_10_rows; reflexivity].
  unfold exec, get_last_10_temperatures_from_nvm_handler, bind, get, ret.
  pose proof (get_last_10_keeps s d) as H.
  destruct (get_last_10_temperatures_from_nvm s d) as [a d']. exact H.
Qed.

(** An append never touches the threshold, the latch, the LED, the
    clock base, the measured temperature or the rows of the last
    answer, whatever calls are refused. *)
Theorem store_temperature_keeps_controller (rtc_us : Z) (d : device) :
  same_controller d (exec (store_temperature rtc_us) d).
Proof. apply store_temperature_keeps. Qed.






End HistoryMore.

(** ** The main loop *)

Lemma exec_bind {A B} (m : M A) (k : A -> M B) (d : device) :
  exec (bind m k) d = exec (k (eval m d)) (exec m d).
Proof. unfold exec, eval, bind. now destruct (m d). Qed.

Lemma handle_threshold_frame (d : device) :
  nvs (exec handle_threshold d) = nvs d
  /\ faults (exec handle_threshold d) = faults d
  /\ temperature (exec handle_threshold d) = temperature d
  /\ t (exec handle_threshold d) = t d
  /\ threshold (exec handle_threshold d) = threshold d.
Proof.
  destruct d as [tmp arr th ov t0 ts e0 led m fl orn].
  unfold handle_threshold, exec, bind, get. cbn.
  destruct (negb (th =? THRESHOLD_DEFAULT_VALUE)%float); [|repeat split].
  destruct ((th <=? tmp)%float || ov && (th - 1 <=? tmp)%float);
    repeat split.
Qed.

Section MainLoop.
Context {libc : Libc}.

Lemma sampling_cycle_appends (mV rtc_us : Z) (d : device) :
  faults d = [] ->
  exec (sampling_cycle mV rtc_us) d
  = append [] (temperature_of mV, rtc_us)
           (exec handle_threshold (set_temperature (temperature_of mV) d)).
Proof.
  intros Hf. unfold sampling_cycle. rewrite !exec_bind.
  change (exec (get_temperature mV) d)
    with (set_temperature (temperature_of mV) d).
  set (d1 := set_temperature (temperature_of mV) d).
  destruct (handle_threshold_frame d1) as (_ & Hf1 & Htmp & _).
  unfold append. cbn [fst snd]. f_equal.
  destruct (exec handle_threshold d1) as [tmp arr th ov t0 ts e0 led m fl orn].
  cbn in Hf1, Htmp. subst d1. cbn in Hf1, Htmp. subst. cbn in Hf.
  unfold set_faults, set_temperature. cbn. now rewrite Hf.
Qed.

Lemma sampling_loop_cons (mV rtc_us : Z) (rest : list (Z * Z)) (d : device) :
  exec (sampling_loop ((mV, rtc_us) :: rest)) d
  = exec (sampling_loop rest) (exec (sampling_cycle mV rtc_us) d).
Proof. cbn [sampling_loop]. now rewrite exec_bind. Qed.

Lemma sampling_loop_counter (samples : list (Z * Z)) :
  forall (d : device) (c : Z),
    nvs d !! memory_count = Some (NvsU16 c) -> faults d = [] ->
    0 <= c -> c + Z.of_nat (length samples) < 65536 ->
    nvs (exec (sampling_loop samples) d) !! memory_count
    = Some (NvsU16 (c + Z.of_nat (length samples)))
    /\ t (exec (sampling_loop samples) d) = t d.
Proof.
  induction samples as [|[mV rtc_us] rest IH]; intros d c Hc Hf H0 Hlen.
  - cbn. rewrite Z.add_0_r. now split.
  - rewrite sampling_loop_cons, sampling_cycle_appends by exact Hf.
    destruct (handle_threshold_frame
                (set_temperature (temperature_of mV) d))
      as (Hn & _ & _ & Ht & _).
    set (d2 := exec handle_threshold
                 (set_temperature (temperature_of mV) d)) in *.
    assert (nvs d2 !! memory_count = Some (NvsU16 c)) as Hc2
      by (rewrite Hn; exact Hc).
    rewrite (append_ok _ d2 c Hc2).
    cbn [length] in Hlen.
    destruct (IH (appended (temperature_of mV, rtc_us) d2
                    (<[memory_count := NvsU16 (wrap16 (c + 1))]>
                       (<[temperature_key (wrap16 (c + 1))
                          := NvsStr (record d2 (temperature_of mV, rtc_us))]>
                          (nvs d2)))
                    (wrap16 (c + 1)))
                 (c + 1)) as [Hcount Hclock]; try lia.
    + change (nvs (appended ?r ?d ?m ?i)) with m.
      unfold wrap16. rewrite Z.mod_small by lia. apply lookup_insert_eq.
    + reflexivity.
    + split.
      * rewrite Hcount. do 2 f_equal. cbn [length]. lia.
      * rewrite Hclock. exact Ht.
Qed.

(** Booting on a partition without counter and running [N] sampling
    cycles ([1 <= N <= 65536], no call refused) leaves the counter at
    [N - 1]; the clock base is the one [init_time] computed, no cycle
    changes it. *)
Theorem app_main_counter (time_at : Z -> Z) (samples : list (Z * Z))
    (d : device) :
  nvs d !! memory_count = None -> faults d = [] ->
  1 <= Z.of_nat (length samples) <= 65536 ->
  nvs (exec (app_main time_at samples) d) !! memory_count
  = Some (NvsU16 (Z.of_nat (length samples) - 1))
  /\ t (exec (app_main time_at samples) d) = t (exec (init_time time_at) d).
Proof.
  intros Hnone Hf Hlen. unfold app_main. rewrite !exec_bind.
  set (d1 := exec configure_led (exec (init_time time_at) d)).
  assert (nvs d1 = nvs d /\ faults d1 = faults d
          /\ t d1 = t (exec (init_time time_at) d)) as (Hn1 & Hf1 & Ht1)
    by (repeat split).
  destruct samples as [|[mV rtc_us] rest]; [cbn in Hlen; lia|].
  cbn [length] in Hlen.
  rewrite sampling_loop_cons, sampling_cycle_appends by congruence.
  destruct (handle_threshold_frame
              (set_temperature (temperature_of mV) d1))
    as (Hn & _ & _ & Ht & _).
  set (d2 := exec handle_threshold
               (set_temperature (temperature_of mV) d1)) in *.
  assert (nvs d2 !! memory_count = None) as Hc2
    by (rewrite Hn; cbn [nvs set_temperature]; rewrite Hn1; exact Hnone).
  rewrite (append_first _ d2 Hc2).
  destruct (sampling_loop_counter rest
              (appended (temperature_of mV, rtc_us) d2
                 (<[memory_count := NvsU16 0]>
                    (<[temperature_key 0
                       := NvsStr (record d2 (temperature_of mV, rtc_us))]>
                       ∅))
                 0)
              0) as [Hcount Hclock]; try lia.
  - change (nvs (appended ?r ?d ?m ?i)) with m. apply lookup_insert_eq.
  - reflexivity.
  - split.
    + rewrite Hcount. do 2 f_equal. cbn [length]. lia.
    + rewrite Hclock. cbn [t appended set_faults set_err set_nvs
                           set_time_as_string set_temperature set_overrun].
      rewrite Ht. exact Ht1.
Qed.

Lemma sampling_cycle_led (mV rtc_us : Z) (d : device) :
  (threshold d =? THRESHOLD_DEFAULT_VALUE)%float = true ->
  gpio_led (exec (sampling_cycle mV rtc_us) d) = gpio_led d
  /\ threshold (exec (sampling_cycle mV rtc_us) d) = threshold d.
Proof.
  intros Hdis. unfold sampling_cycle. rewrite !exec_bind.
  change (exec (get_temperature mV) d)
    with (set_temperature (temperature_of mV) d).
  rewrite handle_threshold_sentinel by exact Hdis.
  destruct (store_temperature_keeps rtc_us
              (set_temperature (temperature_of mV) d))
    as (_ & _ & Hth & _ & _ & Hled).
  split; [exact Hled|exact Hth].
Qed.

(** Until a threshold is set, the LED stays off: after [app_main] has
    configured the LED, no number of sampling cycles turns it on while
    the threshold holds the sentinel -50.0, whatever the samples and
    whatever calls are refused. *)
Theorem app_main_led_off_while_disabled (time_at : Z -> Z)
    (samples : list (Z * Z)) (d : device) :
  (threshold d =? THRESHOLD_DEFAULT_VALUE)%float = true ->
  gpio_led (exec (app_main time_at samples) d) = false.
Proof.
  intros Hdis. unfold app_main. rewrite !exec_bind.
  set (d1 := exec configure_led (exec (init_time time_at) d)).
  assert (gpio_led d1 = false) as Hled by reflexivity.
  assert ((threshold d1 =? THRESHOLD_DEFAULT_VALUE)%float = true) as Hdis1
    by exact Hdis.
  clearbody d1. clear Hdis. revert d1 Hled Hdis1.
  induction samples as [|[mV rtc_us] rest IH]; intros d1 Hled Hdis1;
    [exact Hled|].
  rewrite sampling_loop_cons.
  destruct (sampling_cycle_led mV rtc_us d1 Hdis1) as [Hl Hth].
  apply IH; [now rewrite Hl|now rewrite Hth].
Qed.

End MainLoop.

(** ** Further concrete runs *)

Lemma eleven_stored_counter :
  nvs eleven_stored !! memory_count = Some (NvsU16 10).
Proof. vm_compute. reflexivity. Qed.

Lemma reading_stored_under_index_witness :
  nvs (@appends newlib_utc (map sample_reading [1; 2; 3]) (synced 1702645200))
      !! temperature_key (Z.of_nat 1)
  = Some (NvsStr (@record newlib_utc (synced 1702645200)
                    (nth 1 (map sample_reading [1; 2; 3])
                         (sample_reading 0))))
  /\ (Z.of_nat (length (map sample_reading [1; 2; 3])) <= 10 ->
      overrun (@appends newlib_utc (map sample_reading [1; 2; 3])
                 (synced 1702645200))
      = overrun (synced 1702645200))
  /\ (11 <= Z.of_nat (length (map sample_reading [1; 2; 3])) ->
      overrun (@appends newlib_utc (map sample_reading [1; 2; 3])
                 (synced 1702645200)) = true).
Proof.
  apply (@reading_stored_under_index newlib_utc (synced 1702645200)
           (map sample_reading [1; 2; 3]) (sample_reading 0) 1).
  - reflexivity.
  - reflexivity.
  - cbn. lia.
  - cbn. lia.
Defined.

Lemma last_10_newest_first_witness :
  nth 0 (last_10 26
           (@appends newlib_utc
              (map sample_reading [1; 2; 3; 4; 5; 6; 7; 8; 9; 10; 11])
              (synced 1702645200))) EmptyString
  = @record newlib_utc (synced 1702645200)
      (nth (length (map sample_reading [1; 2; 3; 4; 5; 6; 7; 8; 9; 10; 11])
            - 1 - 0)
           (map sample_reading [1; 2; 3; 4; 5; 6; 7; 8; 9; 10; 11])
           (sample_reading 0))
  /\ overrun (@appends newlib_utc
                (map sample_reading [1; 2; 3; 4; 5; 6; 7; 8; 9; 10; 11])
                (synced 1702645200)) = true.
Proof.
  apply (@last_10_newest_first newlib_utc 26 (synced 1702645200)
           (map sample_reading [1; 2; 3; 4; 5; 6; 7; 8; 9; 10; 11])
           (sample_reading 0) 26 0).
  - reflexivity.
  - reflexivity.
  - reflexivity.
  - cbn. lia.
  - intros i Hi. cbn [length map] in Hi.
    assert (i = 1 \/ i = 2 \/ i = 3 \/ i = 4 \/ i = 5 \/ i = 6 \/ i = 7
            \/ i = 8 \/ i = 9 \/ i = 10)%nat as Hcases by lia.
    repeat (destruct Hcases as [-> | Hcases]; [vm_compute; reflexivity|]).
    subst i. vm_compute. reflexivity.
  - lia.
  - unfold row_size. lia.
  - lia.
Defined.

Lemma last_10_without_lookup_witness :
  last_10 48 three_stored = temperature_arr three_stored
  /\ temperature_arr (exec (get_last_10_temperatures_from_nvm_handler 48)
                           three_stored)
     = temperature_arr three_stored.
Proof.
  apply (last_10_without_lookup 48 three_stored).
  - vm_compute. reflexivity.
  - vm_compute. reflexivity.
  - right. exists 2. split; [vm_compute; reflexivity|lia].
Defined.





Lemma app_main_counter_witness :
  nvs (exec (@app_main newlib_utc (fun _ => 1702641600)
               [(1000, 2000000); (1100, 4000000); (1200, 6000000)]) boot)
      !! memory_count
  = Some (NvsU16 (Z.of_nat (length [(1000, 2000000); (1100, 4000000);
                                    (1200, 6000000)]) - 1))
  /\ t (exec (@app_main newlib_utc (fun _ => 1702641600)
                [(1000, 2000000); (1100, 4000000); (1200, 6000000)]) boot)
     = t (exec (@init_time newlib_utc (fun _ => 1702641600)) boot).
Proof.
  apply (@app_main_counter newlib_utc (fun _ => 1702641600)
           [(1000, 2000000); (1100, 4000000); (1200, 6000000)] boot).
  - reflexivity.
  - reflexivity.
  - cbn. lia.
Defined.

Lemma app_main_led_off_while_disabled_witness :
  gpio_led (exec (@app_main newlib_utc (fun _ => 1702641600)
                    [(1000, 2000000); (1100, 4000000)]) boot) = false.
Proof.
  apply (@app_main_led_off_while_disabled newlib_utc (fun _ => 1702641600)
           [(1000, 2000000); (1100, 4000000)] boot).
  reflexivity.
Defined.
